(** * Course recommender: retrieval, scoring, path building and gap analysis

    A shallow embedding of [src/course_analytics.py] and
    [src/vector_search.py], and the properties of the recommendation
    pipeline proved over it.

    Conventions of the embedding.
    - Python floats are idealised as exact rationals ([Q]); equalities
      between computed scores are stated with [==].  An int stored in a
      float field of a pydantic model becomes the nearest double
      ([Py.float_of_int]).
    - Python [str] values are ASCII strings; [str.lower] lowers the
      letters A-Z.
    - The course and preference dicts are records whose fields are
      [option]s: [None] is an absent key, and [d.get(k, v)] is
      [default v (k d)].
    - External collaborators (the embedding service, SQLite, numpy, json)
      are fields of a record of calls; each call either returns a value
      or raises an exception, and [except Exception] catches every
      exception of the model. *)

From Stdlib Require Import Ascii String QArith Lqa.
From stdpp Require Import base list strings gmap sets sorting pretty.

Local Open Scope string_scope.

(** ** Python primitives *)

Module Py.

(** [str.lower] on ASCII text. *)
Definition lower_char (c : ascii) : ascii :=
  let n := nat_of_ascii c in
  if (65 <=? n)%nat && (n <=? 90)%nat then ascii_of_nat (n + 32) else c.

Fixpoint lower (s : string) : string :=
  match s with
  | EmptyString => EmptyString
  | String c t => String (lower_char c) (lower t)
  end.

(** [needle in hay] for two strings. *)
Fixpoint contains (needle hay : string) : bool :=
  String.prefix needle hay ||
  match hay with
  | EmptyString => false
  | String _ t => contains needle t
  end.

(** [l.count(x)] and [s.replace(a, b)] for single characters. *)
Definition count (x : string) (l : list string) : nat :=
  length (filter (x =.) l).

Fixpoint replace_char (a b : ascii) (s : string) : string :=
  match s with
  | EmptyString => EmptyString
  | String c t =>
      String (if Ascii.eqb c a then b else c) (replace_char a b t)
  end.

(** Iterating over [set(l)] visits each distinct element once, in an
    order the language leaves open; [elements] of the finite set stands
    for it. *)
Definition set_iter (l : list string) : list string :=
  elements (list_to_set l : gset string).

(** [sep.join(parts)]. *)
Fixpoint join (sep : string) (parts : list string) : string :=
  match parts with
  | [] => ""
  | [p] => p
  | p :: rest => p ++ sep ++ join sep rest
  end.

(** [l[:n]] for a Python int [n]: a negative bound counts from the end. *)
Definition slice_to {A} (n : Z) (l : list A) : list A :=
  if (n <? 0)%Z then take (length l - Z.to_nat (- n)) l
  else take (Z.to_nat n) l.

(** Truthiness of a string, of an int and of an optional value. *)
Definition truthy_str (s : string) : bool :=
  match s with EmptyString => false | _ => true end.

Definition truthy_int (n : Z) : bool := negb (n =? 0)%Z.

Definition truthy_opt {A} (f : A → bool) (o : option A) : bool :=
  match o with Some a => f a | None => false end.

(** Comparison and [min] on floats. [min(a, b)] keeps its first argument
    unless the second is strictly smaller. *)
Definition Qltb (x y : Q) : bool := negb (Qle_bool y x).

Definition min (a b : Q) : Q := if Qltb b a then b else a.

(** [float(n)] for an int, as pydantic coerces an int given to a float
    field: [n] itself up to 2^53 in absolute value, and beyond that the
    nearest number with a significand of 53 bits, a tie going to the even
    significand.  An int beyond the range of a double, for which [float]
    raises [OverflowError], is not modelled. *)
Definition float_of_int (n : Z) : Q :=
  let a := Z.abs n in
  if (a <=? 2 ^ 53)%Z then inject_Z n
  else
    let shift := (Z.log2 a + 1 - 53)%Z in
    let significand := Z.shiftr a shift in
    let rest := Z.land a (Z.ones shift) in
    let half := Z.shiftl 1 (shift - 1) in
    let rounded :=
      if ((half <? rest) || ((rest =? half) && Z.odd significand))%Z
      then (significand + 1)%Z else significand in
    inject_Z (Z.sgn n * Z.shiftl rounded shift).

(** [sorted] and [list.sort] are stable.  [sort_by before l] places [x]
    after every element that is strictly [before] it and in front of
    the others already placed, which came later in the input; for a key
    order this is the one stable arrangement, the result of Python's
    sort. *)
Section Sort.
Context {A : Type} (before : A → A → bool).

Fixpoint insert_by (x : A) (l : list A) : list A :=
  match l with
  | [] => [x]
  | y :: l' => if before y x then y :: insert_by x l' else x :: y :: l'
  end.

Definition sort_by (l : list A) : list A := foldr insert_by [] l.

(** The order of the result: [x] may stand in front of [y] when [y] is
    not strictly before [x]. *)
Definition may_precede (x y : A) : Prop := before y x = false.
End Sort.

(** [sorted(l, key=key)] with integer keys. *)
Definition sorted_key {A} (key : A → Z) : list A → list A :=
  sort_by (λ y x, (key y <? key x)%Z).

(** [l.sort(key=key, reverse=True)] with float keys. *)
Definition sort_key_reverse {A} (key : A → Q) : list A → list A :=
  sort_by (λ y x, Qltb (key x) (key y)).

(** Exceptions carry the name of their class and [str(e)]. *)
Record Exn := { exn_type : string; exn_msg : string }.

Inductive result (A : Type) : Type :=
  | Ok (a : A)
  | Raise (e : Exn).
Global Arguments Ok {A} a.
Global Arguments Raise {A} e.

Global Instance result_ret : MRet result := λ A a, Ok a.
Global Instance result_bind : MBind result := λ A B f m,
  match m with Ok a => f a | Raise e => Raise e end.

(** Reading a local variable that no assignment has reached yet. *)
Definition read_local {A} (name : string) (v : option A) : result A :=
  match v with
  | Some a => Ok a
  | None =>
      Raise {| exn_type := "UnboundLocalError";
               exn_msg := "cannot access local variable '" ++ name ++
                          "' where it is not associated with a value" |}
  end.

End Py.

Import Py.

(** ** Data model *)

(** A candidate course dict, as the analytics functions read it. *)
Module Course.
Record t := {
  course_id : option string;
  title : option string;
  provider : option string;
  level : option string;
  duration_hours : option Z;
  modality : option string;
  tags : option (list string);
  prerequisites : option (list string);
  similarity_score : option Q;
  course_rating : option Q;
  enrollment_count : option Z;
  certification_offered : option bool
}.

Definition empty : t :=
  {| course_id := None; title := None; provider := None; level := None;
     duration_hours := None; modality := None; tags := None;
     prerequisites := None; similarity_score := None;
     course_rating := None; enrollment_count := None;
     certification_offered := None |}.
End Course.

(** The user preferences dict. *)
Module Prefs.
Record t := {
  skill_level : option string;
  modality : option string;
  provider_preference : option string;
  max_duration_hours : option Z
}.

Definition empty : t :=
  {| skill_level := None; modality := None;
     provider_preference := None; max_duration_hours := None |}.
End Prefs.

Module CourseRecommendation.
Record t := {
  course_id : string;
  title : string;
  provider : string;
  level : string;
  duration_hours : Z;
  modality : string;
  tags : list string;
  recommendation_score : Q;
  recommendation_reason : string;
  similarity_score : Q
}.

(** The same recommendation under another reason. *)
Definition with_reason (reason : string) (r : t) : t :=
  {| course_id := course_id r; title := title r; provider := provider r;
     level := level r; duration_hours := duration_hours r;
     modality := modality r; tags := tags r;
     recommendation_score := recommendation_score r;
     recommendation_reason := reason;
     similarity_score := similarity_score r |}.
End CourseRecommendation.

Module LearningPath.
Record t := {
  path_name : string;
  path_description : string;
  total_duration_hours : Z;
  estimated_completion_months : Z;
  skill_progression : list string;
  courses : list CourseRecommendation.t
}.
End LearningPath.

Module SkillGapAnalysis.
Record t := {
  gap_severity : string;
  identified_gaps : list string;
  prerequisite_issues : list string;
  recommended_additional_courses : list string
}.
End SkillGapAnalysis.

(** ** Recommendation scorer: [analyze_course_recommendations] *)

Module Scorer.
Import CourseRecommendation.

Local Open Scope Q_scope.

Definition base_score (course : Course.t) : Q :=
  default (1 # 2) (Course.similarity_score course).

Definition quality_boost (course : Course.t) : Q :=
  let quality_boost := 0 in
  let quality_boost :=
    if Qle_bool 4 (default 0 (Course.course_rating course))
    then quality_boost + (1 # 10) else quality_boost in
  let quality_boost :=
    if (1000 <? default 0%Z (Course.enrollment_count course))%Z
    then quality_boost + (5 # 100) else quality_boost in
  let quality_boost :=
    if default false (Course.certification_offered course)
    then quality_boost + (5 # 100) else quality_boost in
  quality_boost.

(** The four preference tests, in source order. *)
Definition skill_level_matches (user_preferences : Prefs.t) (course : Course.t) : bool :=
  bool_decide (Prefs.skill_level user_preferences =
               Some (lower (default "" (Course.level course)))).

Definition modality_matches (user_preferences : Prefs.t) (course : Course.t) : bool :=
  bool_decide (Prefs.modality user_preferences =
               Some (lower (default "" (Course.modality course)))).

Definition provider_matches (user_preferences : Prefs.t) (course : Course.t) : bool :=
  match Prefs.provider_preference user_preferences with
  | Some p =>
      truthy_str p &&
      contains (lower p) (lower (default "" (Course.provider course)))
  | None => false
  end.

Definition duration_fits (user_preferences : Prefs.t) (course : Course.t) : bool :=
  match Prefs.max_duration_hours user_preferences with
  | Some max_duration =>
      truthy_int max_duration &&
      (default 0%Z (Course.duration_hours course) <=? max_duration)%Z
  | None => false
  end.

Definition preference_boost (user_preferences : Prefs.t) (course : Course.t) : Q :=
  let preference_boost := 0 in
  let preference_boost :=
    if skill_level_matches user_preferences course
    then preference_boost + (1 # 10) else preference_boost in
  let preference_boost :=
    if modality_matches user_preferences course
    then preference_boost + (5 # 100) else preference_boost in
  let preference_boost :=
    if provider_matches user_preferences course
    then preference_boost + (5 # 100) else preference_boost in
  let preference_boost :=
    if duration_fits user_preferences course
    then preference_boost + (5 # 100) else preference_boost in
  preference_boost.

Definition final_score (user_preferences : Prefs.t) (course : Course.t) : Q :=
  Py.min 1 (base_score course + quality_boost course
            + preference_boost user_preferences course).

Definition reasons (user_preferences : Prefs.t) (course : Course.t) : list string :=
  (if Qltb (8 # 10) (base_score course)
   then ["highly relevant to your query"] else []) ++
  (if default false (Course.certification_offered course)
   then ["offers professional certification"] else []) ++
  (if Qltb (1 # 10) (quality_boost course)
   then ["highly rated by students"] else []) ++
  (if Qltb (5 # 100) (preference_boost user_preferences course)
   then ["matches your preferences"] else []).

Definition reason (user_preferences : Prefs.t) (course : Course.t) : string :=
  match reasons user_preferences course with
  | [] => "Good match for your needs"
  | rs => join ", " (take 2 rs)
  end.

(** The body of the loop: one recommendation per candidate. *)
Definition recommend (user_preferences : Prefs.t) (course : Course.t) : t :=
  {| course_id := default "" (Course.course_id course);
     title := default "" (Course.title course);
     provider := default "" (Course.provider course);
     level := default "" (Course.level course);
     duration_hours := default 0%Z (Course.duration_hours course);
     modality := default "" (Course.modality course);
     tags := default [] (Course.tags course);
     recommendation_score := final_score user_preferences course;
     recommendation_reason := reason user_preferences course;
     similarity_score := base_score course |}.

Definition analyze_course_recommendations
    (courses : list Course.t) (user_preferences : option Prefs.t) : list t :=
  match courses with
  | [] => []
  | _ =>
      let user_preferences := default Prefs.empty user_preferences in
      let recommendations := recommend user_preferences <$> courses in
      sort_key_reverse recommendation_score recommendations
  end.

End Scorer.

(** ** Path builder: [generate_learning_path] *)

Module PathBuilder.
Import CourseRecommendation.

Definition skill_order : gmap string Z :=
  list_to_map [("beginner", 1%Z); ("intermediate", 2%Z);
               ("advanced", 3%Z); ("expert", 4%Z)].

(** The skill ordinal of a level, [skill_order.get(level, 2)], and the sort
    key [skill_order.get(x.get('level', 'intermediate'), 2)]. *)
Definition level_ordinal (level : string) : Z :=
  default 2%Z (skill_order !! level).

Definition level_key (course : Course.t) : Z :=
  level_ordinal (default "intermediate" (Course.level course)).

(** The reason chosen at index [i] of the loop; [n] is
    [len(sorted_courses)]. *)
Definition position_reason (n i : nat) : string :=
  if (i =? 0)%nat then "Foundation course to establish core knowledge"
  else if (Z.of_nat i <? Z.of_nat n - 1)%Z
       then "Builds upon previous concepts and introduces new skills"
       else "Advanced course to master the subject area".

Definition path_recommendation (reason : string) (course : Course.t) : t :=
  {| course_id := default "" (Course.course_id course);
     title := default "" (Course.title course);
     provider := default "" (Course.provider course);
     level := default "" (Course.level course);
     duration_hours := default 0%Z (Course.duration_hours course);
     modality := default "" (Course.modality course);
     tags := default [] (Course.tags course);
     recommendation_score := default (7 # 10) (Course.similarity_score course);
     recommendation_reason := reason;
     similarity_score := default (7 # 10) (Course.similarity_score course) |}.

Definition empty_path : LearningPath.t :=
  {| LearningPath.path_name := "Empty Learning Path";
     LearningPath.path_description := "No courses provided";
     LearningPath.total_duration_hours := 0;
     LearningPath.estimated_completion_months := 0;
     LearningPath.skill_progression := [];
     LearningPath.courses := [] |}.

Definition generate_learning_path
    (courses : list Course.t) (target_skill_level : option string)
    : LearningPath.t :=
  let target_skill_level := default "advanced" target_skill_level in
  match courses with
  | [] => empty_path
  | _ =>
      let sorted_courses := sorted_key level_key courses in
      let selected := slice_to 6 sorted_courses in
      let course_recommendations :=
        imap (λ i course,
                path_recommendation
                  (position_reason (length sorted_courses) i) course)
             selected in
      let total_duration :=
        foldl (λ total course,
                 (total + default 0 (Course.duration_hours course))%Z)
              0%Z selected in
      let skill_levels :=
        set_iter ((λ course, default "intermediate" (Course.level course))
                    <$> sorted_courses) in
      let skill_progression :=
        sorted_key level_ordinal skill_levels in
      let estimated_months := (1 `max` (total_duration `div` 20))%Z in
      let all_tags :=
        mjoin ((λ course, default [] (Course.tags course))
                 <$> sorted_courses) in
      let common_tags :=
        filter (λ tag, 1 < count tag all_tags) (set_iter all_tags) in
      let path_name :=
        match common_tags with
        | [] => "Professional Development Path"
        | _ => join " & " (take 2 common_tags) ++ " Learning Path"
        end in
      {| LearningPath.path_name := path_name;
         LearningPath.path_description :=
           "Structured learning path progressing from " ++
           default "beginner" (head skill_progression) ++
           " to " ++ target_skill_level ++ " level";
         LearningPath.total_duration_hours := total_duration;
         LearningPath.estimated_completion_months := estimated_months;
         LearningPath.skill_progression := skill_progression;
         LearningPath.courses := course_recommendations |}
  end.

End PathBuilder.

(** ** Gap analyzer: [perform_skill_gap_analysis] *)

Module GapAnalyzer.
Import SkillGapAnalysis.

(** The catalog store as the analyzer uses it: opening a connection, the
    [SELECT title ... WHERE level = 'beginner' AND (title LIKE ? OR tags
    LIKE ?) LIMIT 1] query followed by [fetchone], given the pattern, and
    closing. *)
Record Catalog := {
  get_sqlite_connection : result unit;
  select_beginner_title : string → result (option string);
  close : result unit
}.

(** The two lists the loop appends to. *)
Record Findings := {
  gaps : list string;
  issues : list string
}.

Definition record_finding (gap issue : string) (f : Findings) : Findings :=
  {| gaps := gaps f ++ [gap]; issues := issues f ++ [issue] |}.

(** The loop invariant: a gap and an issue are recorded together. *)
Definition paired (f : Findings) : Prop :=
  length (gaps f) = length (issues f).

Definition prereq_met
    (user_background : string) (completed_courses : list string)
    (prereq : string) : bool :=
  contains (lower prereq) (lower user_background) ||
  existsb (λ completed, contains (lower prereq) (lower completed))
          completed_courses.

(** One iteration of the loop over the target courses. *)
Definition analyze_course
    (user_background : string) (completed_courses : list string)
    (f : Findings) (course : Course.t) : Findings :=
  let course_level := lower (default "intermediate" (Course.level course)) in
  let prerequisites := default [] (Course.prerequisites course) in
  let f :=
    if bool_decide (course_level = "advanced") &&
       contains "beginner" (lower user_background)
    then record_finding
           ("Intermediate " ++ default "course" (Course.title course) ++
            " knowledge")
           ("Course '" ++ default "" (Course.title course) ++
            "' may be too advanced") f
    else f in
  foldl (λ f prereq,
           if prereq_met user_background completed_courses prereq then f
           else record_finding prereq ("Missing prerequisite: " ++ prereq) f)
        f prerequisites.

Definition collect_findings
    (target_courses : list Course.t)
    (user_background : string) (completed_courses : list string) : Findings :=
  foldl (analyze_course user_background completed_courses)
        {| gaps := []; issues := [] |} target_courses.

Definition severity_of_count (gap_count : nat) : string :=
  if (gap_count =? 0)%nat then "Low"
  else if (gap_count <=? 2)%nat then "Medium"
  else "High".

Definition bridge_course (db : Catalog) (gap : string) : result string :=
  result ← select_beginner_title db ("%" ++ gap ++ "%");
  match result with
  | Some title => Ok title
  | None =>
      Ok ("introductory_" ++ replace_char " " "_" (lower gap) ++ "_course")
  end.

Definition perform_skill_gap_analysis
    (db : Catalog) (target_courses : list Course.t)
    (user_background : option string)
    (completed_courses : option (list string)) : result t :=
  let completed_courses := default [] completed_courses in
  let user_background := default "" user_background in
  let f := collect_findings target_courses user_background completed_courses in
  let identified_gaps := gaps f in
  let gap_count := length identified_gaps in
  let gap_severity := severity_of_count gap_count in
  recommended_additional ←
    match identified_gaps with
    | [] => Ok []
    | _ =>
        _ ← get_sqlite_connection db;
        recommended ← mapM (bridge_course db) (slice_to 3 identified_gaps);
        _ ← close db;
        Ok recommended
    end;
  Ok {| gap_severity := gap_severity;
        identified_gaps := set_iter identified_gaps;
        prerequisite_issues := issues f;
        recommended_additional_courses := recommended_additional |}.

End GapAnalyzer.

(** ** Vector retriever: [search_courses_by_vector], [get_similar_courses] *)

Module CourseSearchResult.
Record t := {
  course_id : string;
  title : string;
  provider : string;
  level : string;
  duration_hours : Z;
  modality : string;
  tags : list string;
  prerequisites : list string;
  similarity_score : Q;
  content_preview : string;
  valid_regions : list string
}.
End CourseSearchResult.

Module Retriever.
Import CourseSearchResult.

(** A row of [course_catalog], in the column order of the SELECT.  The
    columns the code tests before use are nullable. *)
Record Row := {
  row_course_id : string;
  row_title : string;
  row_provider : string;
  row_level : string;
  row_duration_hours : Z;
  row_modality : string;
  row_tags : option string;
  row_prerequisites : option string;
  row_valid_regions : option string;
  row_course_content : option string;
  row_content_embedding : option string
}.

(** What the retriever calls outside itself.  [new_embeddings] is the
    [WatsonxEmbeddings] constructor, given the project id and the API
    key; [course_catalog] is the content of the table as a query reads
    it; [frombuffer] decodes a stored vector and [cosine] is
    [float(np.dot(q, v) / (norm(q) * norm(v)))].  A world covers the runs
    in which that quotient is a number: for a stored vector of norm 0 or
    with a NaN component numpy yields NaN, on which the comparisons of
    [list.sort] are all false, and such a run has no world.  The
    theorems on the retriever are about the number, the origin and the
    failures of its results, not about their order. *)
Record World := {
  getenv : string → option string;
  new_embeddings : string → string → result unit;
  makedirs : result unit;
  embed_query : string → result (list Q);
  sqlite_connect : result unit;
  enable_load_extension : result unit;
  load_extension : string → result unit;
  create_table : result unit;
  course_catalog : result (list Row);
  frombuffer : string → result (list Q);
  cosine : list Q → list Q → result Q;
  json_loads : string → result (list string);
  conn_close : result unit
}.

(** The dict appended to [similarities]. *)
Record Item := {
  item_course_id : string;
  item_title : string;
  item_provider : string;
  item_level : string;
  item_duration_hours : Z;
  item_modality : string;
  item_tags : list string;
  item_prerequisites : list string;
  item_valid_regions : list string;
  item_course_content : option string;
  item_similarity_score : Q
}.

Definition value_error (msg : string) : Exn :=
  {| exn_type := "ValueError"; exn_msg := msg |}.

(** [json.loads(col) if col else []]. *)
Definition loads_or_empty (w : World) (col : option string) : result (list string) :=
  if truthy_opt truthy_str col then json_loads w (default "" col) else Ok [].

(** The body of the loop over the fetched rows, for one row whose
    embedding is present and not empty. *)
Definition similarity_item
    (w : World) (reference : list Q) (row : Row) (blob : string) : result Item :=
  stored_embedding ← frombuffer w blob;
  similarity ← cosine w reference stored_embedding;
  tags ← loads_or_empty w (row_tags row);
  prerequisites ← loads_or_empty w (row_prerequisites row);
  valid_regions ← loads_or_empty w (row_valid_regions row);
  Ok {| item_course_id := row_course_id row;
        item_title := row_title row;
        item_provider := row_provider row;
        item_level := row_level row;
        item_duration_hours := row_duration_hours row;
        item_modality := row_modality row;
        item_tags := tags;
        item_prerequisites := prerequisites;
        item_valid_regions := valid_regions;
        item_course_content := row_course_content row;
        item_similarity_score := similarity |}.

Fixpoint collect_similarities
    (w : World) (reference : list Q) (rows : list Row) : result (list Item) :=
  match rows with
  | [] => Ok []
  | row :: rows' =>
      if truthy_opt truthy_str (row_content_embedding row) then
        item ← similarity_item w reference row
                 (default "" (row_content_embedding row));
        items ← collect_similarities w reference rows';
        Ok (item :: items)
      else collect_similarities w reference rows'
  end.

Definition search_result (item : Item) : t :=
  let content_preview :=
    if truthy_opt truthy_str (item_course_content item)
    then String.substring 0 200 (default "" (item_course_content item))
    else String.substring 0 200 (item_title item) in
  {| course_id := item_course_id item;
     title := item_title item;
     provider := item_provider item;
     level := item_level item;
     duration_hours := item_duration_hours item;
     modality := item_modality item;
     tags := item_tags item;
     prerequisites := item_prerequisites item;
     similarity_score := item_similarity_score item;
     content_preview := content_preview;
     valid_regions := item_valid_regions item |}.

(** Sorting [similarities] and building the results from the first
    [limit] of them. *)
Definition rank (limit : Z) (similarities : list Item) : list t :=
  search_result <$>
    slice_to limit (sort_key_reverse item_similarity_score similarities).

(** [WHERE content_embedding IS NOT NULL]. *)
Definition embedded (rows : list Row) : list Row :=
  filter (λ row, is_Some (row_content_embedding row)) rows.

(** The statements under [try] in [search_courses_by_vector].  The inner
    [except sqlite3.OperationalError: pass] is keyed on the class name. *)
Definition search_body (w : World) (query_text : string) (limit : Z)
    : result (list t) :=
  query_embedding ← embed_query w query_text;
  _ ← sqlite_connect w;
  _ ← enable_load_extension w;
  _ ← match load_extension w "vec0" with
      | Raise e =>
          if bool_decide (exn_type e = "OperationalError") then Ok ()
          else Raise e
      | Ok _ => Ok ()
      end;
  _ ← create_table w;
  rows ← course_catalog w;
  similarities ← collect_similarities w query_embedding (embedded rows);
  let results := rank limit similarities in
  _ ← conn_close w;
  Ok results.

Definition auth_keywords : list string :=
  ["api key"; "authentication"; "credentials"; "unauthorized";
   "bxnim0415e"; "invalidcredentials"].

(** The test of the handler: is [e] an authentication error? *)
Definition is_auth_error (e : Exn) : bool :=
  let error_str := lower (exn_msg e) in
  let error_type := lower (exn_type e) in
  existsb (λ auth_keyword, contains auth_keyword error_str) auth_keywords ||
  contains "credential" error_type || contains "auth" error_type.

Definition sample_result (query_text : string) : t :=
  {| course_id := "sample_001";
     title := "Sample Course for: " ++ query_text;
     provider := "Sample Provider";
     level := "intermediate";
     duration_hours := 20;
     modality := "online";
     tags := ["sample"; "development"];
     prerequisites := ["basic knowledge"];
     similarity_score := 85 # 100;
     content_preview :=
       "This is a sample course matching your query: " ++ query_text;
     valid_regions := ["US"; "EU"] |}.

(** The statements before [try]: the query check, the two environment
    variables, the embeddings client and the data directory. *)
Definition search_setup (w : World) (query_text : string) : result unit :=
  if negb (truthy_str query_text) then
    Raise (value_error "query_text is required and must be a string")
  else
    let watsonx_api_key := getenv w "WATSONX_API_KEY" in
    let watsonx_project_id := getenv w "WATSONX_PROJECT_ID" in
    if negb (truthy_opt truthy_str watsonx_api_key) then
      Raise (value_error "WATSONX_API_KEY environment variable is required")
    else if negb (truthy_opt truthy_str watsonx_project_id) then
      Raise (value_error "WATSONX_PROJECT_ID environment variable is required")
    else
      _ ← new_embeddings w (default "" watsonx_project_id)
                           (default "" watsonx_api_key);
      makedirs w.

Definition search_courses_by_vector
    (w : World) (query_text : string) (limit : option Z) : result (list t) :=
  let limit := default 3%Z limit in
  _ ← search_setup w query_text;
  match search_body w query_text limit with
  | Ok results => Ok results
  | Raise e =>
      if is_auth_error e then Raise e
      else Ok [sample_result query_text]
  end.

(** [retrieve_courses_node]: the pipeline's call, converted to dicts. *)
Definition course_dict (r : t) : Course.t :=
  {| Course.course_id := Some (course_id r);
     Course.title := Some (title r);
     Course.provider := Some (provider r);
     Course.level := Some (level r);
     Course.duration_hours := Some (duration_hours r);
     Course.modality := Some (modality r);
     Course.tags := Some (tags r);
     Course.prerequisites := Some (prerequisites r);
     Course.similarity_score := Some (similarity_score r);
     Course.course_rating := None;
     Course.enrollment_count := None;
     Course.certification_offered := None |}.

Definition retrieve_courses_node (w : World) (query : string)
    : result (list Course.t) :=
  search_results ← search_courses_by_vector w query (Some 10%Z);
  Ok (map course_dict search_results).

(** The sample data of [get_similar_courses]:
    [range(1, min(limit + 1, 4))]. *)
Definition similar_sample (course_id : string) (i : Z) : t :=
  {| CourseSearchResult.course_id := "similar_" ++ pretty i;
     title := "Similar Course " ++ pretty i ++ " to " ++ course_id;
     provider := "Sample Provider";
     level := "intermediate";
     duration_hours := 15;
     modality := "online";
     tags := ["similar"; "related"];
     prerequisites := [];
     similarity_score := (8 # 10) - inject_Z i * (1 # 10);
     content_preview := "Course similar to " ++ course_id;
     valid_regions := ["US"] |}.

Definition similar_samples (course_id : string) (limit : Z) : list t :=
  similar_sample course_id <$>
    seqZ 1 ((limit + 1) `min` 4 - 1)%Z.

(** The statements under [try] in [get_similar_courses]. *)
Definition similar_body
    (w : World) (reference_embedding : list Q) (rows : list Row) (limit : Z)
    : result (list t) :=
  similarities ← collect_similarities w reference_embedding rows;
  let results := rank limit similarities in
  _ ← conn_close w;
  Ok results.

Definition get_similar_courses
    (w : World) (course_id : string) (limit : option Z) : result (list t) :=
  let limit := default 5%Z limit in
  (* [results] is assigned further down only. *)
  let results : option (list t) := None in
  _ ← sqlite_connect w;
  rows ← course_catalog w;
  let ref_result :=
    head (omap row_content_embedding
            (filter (λ row, row_course_id row = course_id) rows)) in
  match ref_result with
  | None =>
      _ ← conn_close w;
      read_local "results" results
  | Some blob =>
      reference_embedding ← frombuffer w blob;
      rows ← course_catalog w;
      let others :=
        filter (λ row, row_course_id row ≠ course_id) (embedded rows) in
      match similar_body w reference_embedding others limit with
      | Ok results => Ok results
      | Raise e => Ok (similar_samples course_id limit)
      end
  end.

End Retriever.

(** Where a search result comes from: a row of the catalog that has the
    result's id and title and a stored, non-empty embedding. *)
Module Provenance.
Import Retriever.

Definition from_row (rows : list Row) (id title : string) : Prop :=
  ∃ row blob, row ∈ rows ∧ row_course_id row = id ∧ row_title row = title ∧
              row_content_embedding row = Some blob ∧ blob ≠ "".

End Provenance.

(** The gaps that one target course adds to [identified_gaps], read off
    the loop body of [perform_skill_gap_analysis]: the level gap of an
    advanced course for a beginner, then the prerequisites that are not
    met, in order. *)
Module GapFindings.
Import GapAnalyzer.

Definition level_gap (user_background : string) (course : Course.t)
    : list string :=
  if bool_decide
       (lower (default "intermediate" (Course.level course)) = "advanced") &&
     contains "beginner" (lower user_background)
  then ["Intermediate " ++ default "course" (Course.title course) ++
        " knowledge"]
  else [].

Definition unmet
    (user_background : string) (completed_courses : list string)
    (course : Course.t) : list string :=
  filter (λ prereq,
            prereq_met user_background completed_courses prereq = false)
         (default [] (Course.prerequisites course)).

Definition course_gaps
    (user_background : string) (completed_courses : list string)
    (course : Course.t) : list string :=
  (level_gap user_background course ++
   unmet user_background completed_courses course)%list.

End GapFindings.

(** ** Course analytics: [generate_course_analytics] *)

Module CourseAnalytics.

(** [duration_statistics], a [Dict[str, float]], is the empty dict or
    the three keys below. *)
Record DurationStats := {
  stats_min : Q;
  stats_max : Q;
  stats_mean : Q
}.

(** The distributions are dicts from a string to a count: the items in
    insertion order, as Python keeps them. *)
Record t := {
  total_courses_analyzed : nat;
  average_similarity_score : Q;
  skill_level_distribution : list (string * nat);
  modality_distribution : list (string * nat);
  duration_statistics : option DurationStats;
  top_tags : list (string * nat)
}.
End CourseAnalytics.

Module Analytics.
Import CourseAnalytics.

(** [d[k] = d.get(k, 0) + 1] on the items of [d]: a key already present
    keeps its place, a new key goes last. *)
Fixpoint count_into (d : list (string * nat)) (k : string)
    : list (string * nat) :=
  match d with
  | [] => [(k, 1%nat)]
  | (k', n) :: d' =>
      if bool_decide (k' = k) then (k', S n) :: d'
      else (k', n) :: count_into d' k
  end.

(** The counting loop over a list of keys. *)
Definition tally (keys : list string) : list (string * nat) :=
  foldl count_into [] keys.

(** The count that the items [d] hold for the key [k]: 0 when the key is
    absent. *)
Definition held (k : string) (d : list (string * nat)) : nat :=
  sum_list (filter (λ item, item.1 = k) d).*2.

(** [sum], [min] and [max] of a list of ints; the last two are called on
    non-empty lists only. *)
Definition sum_Z (l : list Z) : Z := foldl Z.add 0%Z l.

Definition min_Z (x : Z) (l : list Z) : Z := foldl Z.min x l.

Definition max_Z (x : Z) (l : list Z) : Z := foldl Z.max x l.

Definition sum_Q (l : list Q) : Q := foldl Qplus 0%Q l.

(** [sorted(d.items(), key=lambda x: x[1], reverse=True)]. *)
Definition sorted_count_reverse (items : list (string * nat))
    : list (string * nat) :=
  sort_by (λ y x, (x.2 <? y.2)%nat) items.

Definition empty_analytics : t :=
  {| total_courses_analyzed := 0;
     average_similarity_score := 0%Q;
     skill_level_distribution := [];
     modality_distribution := [];
     duration_statistics := None;
     top_tags := [] |}.

Definition positive_durations (courses : list Course.t) : list Z :=
  filter (λ d, (0 < d)%Z)
         ((λ course, default 0%Z (Course.duration_hours course)) <$> courses).

Definition all_tags (courses : list Course.t) : list string :=
  mjoin ((λ course, lower <$> default [] (Course.tags course)) <$> courses).

Definition generate_course_analytics (courses : list Course.t) : t :=
  match courses with
  | [] => empty_analytics
  | _ =>
      let total_courses := length courses in
      let similarity_scores :=
        (λ course, default 0%Q (Course.similarity_score course))
          <$> courses in
      let avg_similarity :=
        match similarity_scores with
        | [] => 0%Q
        | _ => (sum_Q similarity_scores
                / inject_Z (Z.of_nat (length similarity_scores)))%Q
        end in
      let skill_levels :=
        (λ course, lower (default "unknown" (Course.level course)))
          <$> courses in
      let skill_distribution := tally skill_levels in
      let modalities :=
        (λ course, lower (default "unknown" (Course.modality course)))
          <$> courses in
      let modality_distribution := tally modalities in
      let durations := positive_durations courses in
      let duration_stats :=
        match durations with
        | [] => None
        | d :: ds =>
            Some {| stats_min := float_of_int (min_Z d ds);
                    stats_max := float_of_int (max_Z d ds);
                    stats_mean :=
                      (inject_Z (sum_Z durations)
                       / inject_Z (Z.of_nat (length durations)))%Q |}
        end in
      let tag_counts := tally (all_tags courses) in
      let top_tags := slice_to 10 (sorted_count_reverse tag_counts) in
      {| total_courses_analyzed := total_courses;
         average_similarity_score := avg_similarity;
         skill_level_distribution := skill_distribution;
         modality_distribution := modality_distribution;
         duration_statistics := duration_stats;
         top_tags := top_tags |}
  end.

End Analytics.

(** ** The pipeline: the five nodes and [course_recommendation_rag] *)

Module Pipeline.

(** The [user_preferences] dict of the pipeline: the keys the scorer
    reads, and the two keys the gap node reads. *)
Record Preferences := {
  scoring : Prefs.t;
  background : option string;
  completed_courses : option (list string)
}.

(** What the pipeline calls outside itself: the retriever's world, the
    catalog store of the gap analyzer, the [WatsonxLLM] constructor given
    the project id and the API key, [llm.invoke], and the float format
    [:.2f]. *)
Record Services := {
  world : Retriever.World;
  catalog : GapAnalyzer.Catalog;
  new_llm : string → string → result unit;
  llm_invoke : string → result string;
  format_2f : Q → string
}.

Record RAGState := {
  query : string;
  courses : list Course.t;
  recommendations : list CourseRecommendation.t;
  analytics : option CourseAnalytics.t;
  learning_path : option LearningPath.t;
  skill_gaps : option SkillGapAnalysis.t;
  user_preferences : Preferences;
  context : string
}.

Definition retrieve_courses_node (sv : Services) (state : RAGState)
    : result RAGState :=
  courses ← Retriever.retrieve_courses_node (world sv) (query state);
  Ok {| query := query state;
        courses := courses;
        recommendations := recommendations state;
        analytics := analytics state;
        learning_path := learning_path state;
        skill_gaps := skill_gaps state;
        user_preferences := user_preferences state;
        context := context state |}.

Definition analyze_courses_node (state : RAGState) : RAGState :=
  let recommendations :=
    Scorer.analyze_course_recommendations (courses state)
      (Some (scoring (user_preferences state))) in
  let analytics := Analytics.generate_course_analytics (courses state) in
  {| query := query state;
     courses := courses state;
     recommendations := recommendations;
     analytics := Some analytics;
     learning_path := learning_path state;
     skill_gaps := skill_gaps state;
     user_preferences := user_preferences state;
     context := context state |}.

Definition generate_learning_path_node (state : RAGState) : RAGState :=
  let learning_path :=
    PathBuilder.generate_learning_path (courses state) None in
  {| query := query state;
     courses := courses state;
     recommendations := recommendations state;
     analytics := analytics state;
     learning_path := Some learning_path;
     skill_gaps := skill_gaps state;
     user_preferences := user_preferences state;
     context := context state |}.

Definition skill_gap_analysis_node (sv : Services) (state : RAGState)
    : result RAGState :=
  let user_background :=
    default "" (background (user_preferences state)) in
  let completed_courses :=
    default [] (completed_courses (user_preferences state)) in
  skill_gaps ←
    GapAnalyzer.perform_skill_gap_analysis (catalog sv) (courses state)
      (Some user_background) (Some completed_courses);
  Ok {| query := query state;
        courses := courses state;
        recommendations := recommendations state;
        analytics := analytics state;
        learning_path := learning_path state;
        skill_gaps := Some skill_gaps;
        user_preferences := user_preferences state;
        context := context state |}.

Definition initialize_watsonx_llm (sv : Services) : result unit :=
  let watsonx_api_key := Retriever.getenv (world sv) "WATSONX_API_KEY" in
  let watsonx_project_id := Retriever.getenv (world sv) "WATSONX_PROJECT_ID" in
  if negb (truthy_opt truthy_str watsonx_api_key) then
    Raise (Retriever.value_error
             "WATSONX_API_KEY environment variable is required")
  else if negb (truthy_opt truthy_str watsonx_project_id) then
    Raise (Retriever.value_error
             "WATSONX_PROJECT_ID environment variable is required")
  else new_llm sv (default "" watsonx_project_id)
                  (default "" watsonx_api_key).

Definition newline : string := String (ascii_of_nat 10) EmptyString.

(** The lines appended to [context_parts]. *)
Definition context_parts (sv : Services) (state : RAGState) : list string :=
  (match recommendations state with
   | [] => []
   | recs =>
       ("Found " ++ pretty (length recs) ++ " relevant courses:") ::
       ((λ rec,
           "- " ++ CourseRecommendation.title rec ++
           " (" ++ CourseRecommendation.provider rec ++
           ") - Score: " ++
           format_2f sv (CourseRecommendation.recommendation_score rec))
          <$> slice_to 3 recs)
   end) ++
  (match analytics state with
   | Some analytics =>
       ["\nAnalytics: " ++
        pretty (CourseAnalytics.total_courses_analyzed analytics) ++
        " courses analyzed, avg similarity: " ++
        format_2f sv (CourseAnalytics.average_similarity_score analytics)]
   | None => []
   end) ++
  (match learning_path state with
   | Some lp =>
       ["\nLearning Path: " ++ LearningPath.path_name lp ++ " (" ++
        pretty (LearningPath.total_duration_hours lp) ++ "h, " ++
        pretty (LearningPath.estimated_completion_months lp) ++ " months)"]
   | None => []
   end) ++
  (match skill_gaps state with
   | Some gaps =>
       ["\nSkill Gaps: " ++ SkillGapAnalysis.gap_severity gaps ++
        " severity, " ++
        pretty (length (SkillGapAnalysis.identified_gaps gaps)) ++
        " gaps identified"]
   | None => []
   end).

Definition prompt (query context : string) : string :=
  join newline
    [""; "    User Query: " ++ query;
     "    ";
     "    Course Analysis Results:";
     "    " ++ context;
     "    ";
     "    Please provide a comprehensive response that:";
     "    1. Addresses the user's specific query";
     "    2. Summarizes the most relevant course recommendations";
     "    3. Explains the learning path if applicable";
     "    4. Mentions any skill gaps that should be addressed";
     "    5. Provides actionable next steps";
     "    ";
     "    Keep the response helpful, concise, and focused on the user's learning goals.";
     "    "].

Definition generate_response_node (sv : Services) (state : RAGState)
    : result RAGState :=
  _ ← initialize_watsonx_llm sv;
  let context := join "\n" (context_parts sv state) in
  response ← llm_invoke sv (prompt (query state) context);
  Ok {| query := query state;
        courses := courses state;
        recommendations := recommendations state;
        analytics := analytics state;
        learning_path := learning_path state;
        skill_gaps := skill_gaps state;
        user_preferences := user_preferences state;
        context := response |}.

(** The dict returned by [course_recommendation_rag]. *)
Record Response := {
  response_query : string;
  response : string;
  response_recommendations : list CourseRecommendation.t;
  response_analytics : option CourseAnalytics.t;
  response_learning_path : option LearningPath.t;
  response_skill_gaps : option SkillGapAnalysis.t
}.

Definition empty_preferences : Preferences :=
  {| scoring := Prefs.empty; background := None; completed_courses := None |}.

(** The compiled workflow: the five nodes along the edges of the graph. *)
Definition workflow (sv : Services) (initial_state : RAGState)
    : result RAGState :=
  state ← retrieve_courses_node sv initial_state;
  let state := analyze_courses_node state in
  let state := generate_learning_path_node state in
  state ← skill_gap_analysis_node sv state;
  generate_response_node sv state.

Definition course_recommendation_rag
    (sv : Services) (query : string) (user_preferences : option Preferences)
    : result Response :=
  let initial_state :=
    {| query := query; courses := []; recommendations := [];
       analytics := None; learning_path := None; skill_gaps := None;
       user_preferences := default empty_preferences user_preferences;
       context := "" |} in
  result ← workflow sv initial_state;
  Ok {| response_query := Pipeline.query result;
        response := context result;
        response_recommendations := recommendations result;
        response_analytics := analytics result;
        response_learning_path := learning_path result;
        response_skill_gaps := skill_gaps result |}.

End Pipeline.

(** ** Course details: [_generate_course_modules],
    [_generate_learning_outcomes] *)

Module CourseDetails.

Record CourseModule := {
  module_number : Z;
  module_title : string;
  module_duration_hours : Q;
  topics : list string;
  assessments : list string
}.

Record LearningOutcome := {
  outcome_id : string;
  description : string;
  skill_category : string;
  proficiency_level : string
}.

Definition module_templates : list (string * list string) :=
  [("Introduction and Fundamentals", ["basics"; "overview"; "principles"]);
   ("Core Concepts and Theory", ["theory"; "concepts"; "methods"]);
   ("Practical Applications", ["applications"; "practice"; "examples"]);
   ("Advanced Topics", ["advanced"; "complex"; "specialized"]);
   ("Assessment and Review", ["assessment"; "review"; "evaluation"])].

Definition num_modules (duration : Z) : nat :=
  if (duration <=? 8)%Z then 2
  else if (duration <=? 20)%Z then 3
  else if (duration <=? 40)%Z then 4
  else 5.

(** The module built at index [i] of the loop.  [round1] is Python's
    [round(x, 1)]. *)
Definition course_module
    (round1 : Q → Q) (module_duration : Q) (tags : list string)
    (num_modules i : nat) : CourseModule :=
  let template :=
    default ("", []) (module_templates !! (i mod length module_templates)) in
  let topics :=
    (λ tag, default "" (head template.2) ++ " in " ++ tag)
      <$> slice_to 3 tags in
  let topics := match topics with [] => template.2 | _ => topics end in
  let assessments := ["Quiz"; "Practical Exercise"] in
  let assessments :=
    if bool_decide (Z.of_nat i = Z.of_nat num_modules - 1)%Z
    then (assessments ++ ["Final Assessment"])%list else assessments in
  {| module_number := Z.of_nat i + 1;
     module_title :=
       "Module " ++ pretty (Z.of_nat i + 1)%Z ++ ": " ++ template.1;
     module_duration_hours := round1 module_duration;
     topics := topics;
     assessments := assessments |}.

Definition _generate_course_modules
    (round1 : Q → Q) (duration : Z) (tags : list string) (level : string)
    : list CourseModule :=
  if (duration <=? 0)%Z then []
  else
    let num_modules := num_modules duration in
    let module_duration :=
      (inject_Z duration / inject_Z (Z.of_nat num_modules))%Q in
    course_module round1 module_duration tags num_modules
      <$> seq 0 num_modules.

Definition technical_skills : list string :=
  ["programming"; "automation"; "safety"; "quality"; "maintenance";
   "analysis"].

Definition soft_skills : list string :=
  ["leadership"; "communication"; "management"; "teamwork"].

Definition regulatory_skills : list string :=
  ["compliance"; "osha"; "iso"; "standards"].

(** The two variables that the function updates as it goes. *)
Record Outcomes := {
  outcomes : list LearningOutcome;
  next_id : nat
}.

Definition add_outcome
    (description category level : string) (st : Outcomes) : Outcomes :=
  {| outcomes :=
       (outcomes st ++
        [{| outcome_id := "LO" ++ pretty (next_id st);
            description := description;
            skill_category := category;
            proficiency_level := level |}])%list;
     next_id := next_id st + 1 |}.

(** The invariant of the numbering: the outcomes so far are LO1, LO2,
    ... in order, and [next_id] is the number of the next one. *)
Definition numbered (st : Outcomes) : Prop :=
  outcome_id <$> outcomes st
  = (λ i, "LO" ++ pretty i) <$> seq 1 (length (outcomes st)) ∧
  next_id st = S (length (outcomes st)).

Definition _generate_learning_outcomes
    (title description : string) (tags : list string)
    : list LearningOutcome :=
  let st := {| outcomes := []; next_id := 1 |} in
  let st :=
    foldl (λ st tag,
             let tag_lower := lower tag in
             if existsb (λ skill, contains skill tag_lower) technical_skills
             then add_outcome
                    ("Apply " ++ tag ++
                     " principles and techniques in professional settings")
                    "technical" "intermediate" st
             else st)
          st tags in
  let title_lower := lower title in
  let st :=
    if existsb (λ skill, contains skill title_lower) soft_skills
    then add_outcome
           "Demonstrate effective leadership and communication skills"
           "soft" "intermediate" st
    else st in
  let st :=
    if existsb (λ skill,
                  contains skill title_lower ||
                  existsb (λ tag, contains skill (lower tag)) tags)
               regulatory_skills
    then add_outcome
           "Ensure compliance with industry standards and regulations"
           "regulatory" "advanced" st
    else st in
  match outcomes st with
  | [] =>
      [{| outcome_id := "LO1";
          description := "Master fundamental concepts covered in " ++ title;
          skill_category := "technical";
          proficiency_level := "beginner" |}]
  | outcomes => outcomes
  end.

End CourseDetails.

(** ** Concrete inputs *)

Module Inputs.

(** A candidate whose cosine similarity to the query is negative. *)
Definition negative_candidate : Course.t :=
  {| Course.course_id := Some "c-neg"; Course.title := Some "Unrelated";
     Course.provider := None; Course.level := None;
     Course.duration_hours := None; Course.modality := None;
     Course.tags := None; Course.prerequisites := None;
     Course.similarity_score := Some (- (1 # 2))%Q;
     Course.course_rating := None; Course.enrollment_count := None;
     Course.certification_offered := None |}.

(** A candidate with a level and nothing else, and one without a
    [similarity_score] but with a rating. *)
Definition leveled (lvl : string) : Course.t :=
  {| Course.course_id := None; Course.title := None;
     Course.provider := None; Course.level := Some lvl;
     Course.duration_hours := None; Course.modality := None;
     Course.tags := None; Course.prerequisites := None;
     Course.similarity_score := None;
     Course.course_rating := None; Course.enrollment_count := None;
     Course.certification_offered := None |}.

Definition unscored_candidate : Course.t :=
  {| Course.course_id := Some "c-1"; Course.title := Some "Statistics";
     Course.provider := None; Course.level := Some "beginner";
     Course.duration_hours := Some 12%Z; Course.modality := None;
     Course.tags := None; Course.prerequisites := None;
     Course.similarity_score := None;
     Course.course_rating := Some (45 # 10)%Q;
     Course.enrollment_count := None;
     Course.certification_offered := None |}.

Definition prefers_level (s : string) : Prefs.t :=
  {| Prefs.skill_level := Some s; Prefs.modality := None;
     Prefs.provider_preference := None; Prefs.max_duration_hours := None |}.

(** Seven candidates, one more than a path holds, and three of mixed
    levels. *)
Definition seven_courses : list Course.t :=
  [leveled "beginner"; leveled "advanced"; leveled "intermediate";
   leveled "expert"; leveled "beginner"; leveled "advanced";
   leveled "intermediate"].

Definition three_courses : list Course.t :=
  [leveled "advanced"; leveled "Unknown"; leveled "beginner"].

(** A course known by its prerequisites, three courses that all require
    calculus, and a reachable catalog without a matching beginner course. *)
Definition requires (prereqs : list string) : Course.t :=
  {| Course.course_id := None; Course.title := None;
     Course.provider := None; Course.level := None;
     Course.duration_hours := None; Course.modality := None;
     Course.tags := None; Course.prerequisites := Some prereqs;
     Course.similarity_score := None;
     Course.course_rating := None; Course.enrollment_count := None;
     Course.certification_offered := None |}.

Definition calculus_courses : list Course.t :=
  [requires ["calculus"]; requires ["calculus"]; requires ["calculus"]].

(** A candidate known by its duration. *)
Definition lasting (hours : Z) : Course.t :=
  {| Course.course_id := None; Course.title := None;
     Course.provider := None; Course.level := None;
     Course.duration_hours := Some hours; Course.modality := None;
     Course.tags := None; Course.prerequisites := None;
     Course.similarity_score := None;
     Course.course_rating := None; Course.enrollment_count := None;
     Course.certification_offered := None |}.

Definition two_prerequisites : list Course.t :=
  [requires ["calculus"]; requires ["statistics"]].

(** A catalog store with a beginner course on calculus and no other. *)
Definition calculus_catalog : GapAnalyzer.Catalog :=
  {| GapAnalyzer.get_sqlite_connection := Ok ();
     GapAnalyzer.select_beginner_title := λ pattern,
       if String.eqb pattern "%calculus%" then Ok (Some "Calculus I")
       else Ok None;
     GapAnalyzer.close := Ok () |}.

Definition no_match_catalog : GapAnalyzer.Catalog :=
  {| GapAnalyzer.get_sqlite_connection := Ok ();
     GapAnalyzer.select_beginner_title := λ _, Ok None;
     GapAnalyzer.close := Ok () |}.

(** Catalog rows and worlds for the retriever.  A stored vector is
    written as a run of bytes whose number, in tenths, is its cosine
    similarity to any reference. *)
Definition row (id : string) (embedding : option string) : Retriever.Row :=
  {| Retriever.row_course_id := id;
     Retriever.row_title := "Course " ++ id;
     Retriever.row_provider := "Provider";
     Retriever.row_level := "beginner";
     Retriever.row_duration_hours := 10;
     Retriever.row_modality := "online";
     Retriever.row_tags := None;
     Retriever.row_prerequisites := None;
     Retriever.row_valid_regions := None;
     Retriever.row_course_content := None;
     Retriever.row_content_embedding := embedding |}.

Definition world
    (api_key : option string) (made : result unit)
    (embedded : result (list Q)) (catalog : result (list Retriever.Row))
    : Retriever.World :=
  {| Retriever.getenv := λ name,
       if bool_decide (name = "WATSONX_API_KEY") then api_key
       else Some "project";
     Retriever.new_embeddings := λ _ _, Ok ();
     Retriever.makedirs := made;
     Retriever.embed_query := λ _, embedded;
     Retriever.sqlite_connect := Ok ();
     Retriever.enable_load_extension := Ok ();
     Retriever.load_extension := λ _,
       Raise {| exn_type := "OperationalError";
                exn_msg := "vec0: cannot open shared object file" |};
     Retriever.create_table := Ok ();
     Retriever.course_catalog := catalog;
     Retriever.frombuffer := λ blob,
       Ok [(inject_Z (Z.of_nat (String.length blob)) / 10)%Q];
     Retriever.cosine := λ _ v, Ok (default 0%Q (head v));
     Retriever.json_loads := λ _, Ok [];
     Retriever.conn_close := Ok () |}.

Definition four_rows : list Retriever.Row :=
  [row "a" (Some "xxxx"); row "b" (Some "xxxxxxxxx");
   row "c" (Some "xx"); row "d" (Some "xxxxxxx"); row "e" None].

Definition healthy : Retriever.World :=
  world (Some "key") (Ok ()) (Ok [1%Q]) (Ok four_rows).

Definition no_api_key : Retriever.World :=
  world None (Ok ()) (Ok [1%Q]) (Ok four_rows).

Definition read_only_disk : Retriever.World :=
  world (Some "key")
    (Raise {| exn_type := "PermissionError";
              exn_msg := "[Errno 13] Permission denied: 'data'" |})
    (Ok [1%Q]) (Ok four_rows).

Definition store_down : Retriever.World :=
  world (Some "key") (Ok ()) (Ok [1%Q])
    (Raise {| exn_type := "OperationalError";
              exn_msg := "unable to open database file" |}).

Definition key_rejected : Retriever.World :=
  world (Some "key") (Ok ())
    (Raise {| exn_type := "ApiRequestFailure";
              exn_msg := "Status code: 401, Unauthorized" |})
    (Ok four_rows).

(** A well rated candidate with many enrollments. *)
Definition popular_candidate : Course.t :=
  {| Course.course_id := Some "c-2"; Course.title := Some "Python";
     Course.provider := None; Course.level := None;
     Course.duration_hours := None; Course.modality := None;
     Course.tags := None; Course.prerequisites := None;
     Course.similarity_score := Some (6 # 10)%Q;
     Course.course_rating := Some (45 # 10)%Q;
     Course.enrollment_count := Some 5000%Z;
     Course.certification_offered := None |}.

(** A catalog store that cannot be opened. *)
Definition closed_catalog : GapAnalyzer.Catalog :=
  {| GapAnalyzer.get_sqlite_connection :=
       Raise {| exn_type := "OperationalError";
                exn_msg := "unable to open database file" |};
     GapAnalyzer.select_beginner_title := λ _,
       Raise {| exn_type := "OperationalError";
                exn_msg := "unable to open database file" |};
     GapAnalyzer.close := Ok () |}.

(** Services over the healthy world, with a language model that echoes
    a fixed answer. *)
Definition services (w : Retriever.World) : Pipeline.Services :=
  {| Pipeline.world := w;
     Pipeline.catalog := no_match_catalog;
     Pipeline.new_llm := λ _ _, Ok ();
     Pipeline.llm_invoke := λ _, Ok "Here are your courses.";
     Pipeline.format_2f := λ _, "0.00" |}.

End Inputs.

(** * Properties *)

(** ** The stable sort *)

Module SortFacts.

Section SortBy.
Context {A : Type} (before : A → A → bool).

Lemma insert_by_Permutation x l : insert_by before x l ≡ₚ x :: l.
Proof.
  induction l as [|y l IH]; simpl; [done|].
  destruct (before y x); [|done].
  rewrite IH. apply Permutation_swap.
Qed.

Lemma sort_by_Permutation l : sort_by before l ≡ₚ l.
Proof.
  induction l as [|x l IH]; simpl; [done|].
  rewrite insert_by_Permutation. by f_equiv.
Qed.

Lemma sort_by_length l : length (sort_by before l) = length l.
Proof. by rewrite sort_by_Permutation. Qed.

Lemma sort_by_nil_inv l : sort_by before l = [] → l = [].
Proof.
  intros E. apply length_zero_iff_nil.
  by rewrite <- sort_by_length, E.
Qed.

(** Stability: the elements of a class of ties keep their input order. *)
Section Stable.
Context (P : A → Prop) `{!∀ x, Decision (P x)}.
Hypothesis ties : ∀ x y, P x → P y → before y x = false.

Lemma filter_insert_by x l :
  filter P (insert_by before x l) = filter P (x :: l).
Proof.
  induction l as [|y l IH]; simpl; [done|].
  destruct (before y x) eqn:E; [|done].
  rewrite filter_cons, IH, !filter_cons.
  destruct (decide (P y)) as [Py|]; [|done].
  destruct (decide (P x)) as [Px|]; [|done].
  rewrite (ties x y Px Py) in E. discriminate.
Qed.

Lemma sort_by_stable l : filter P (sort_by before l) = filter P l.
Proof.
  induction l as [|x l IH]; simpl; [done|].
  rewrite filter_insert_by, !filter_cons. by rewrite IH.
Qed.
End Stable.

Section Ordered.
Hypothesis before_asym : ∀ x y, before x y = true → before y x = false.
Hypothesis not_before_trans :
  ∀ x y z, before y x = false → before z y = false → before z x = false.

Lemma insert_by_sorted x l :
  StronglySorted (may_precede before) l →
  StronglySorted (may_precede before) (insert_by before x l).
Proof.
  induction 1 as [|y l Hl IH Hy]; simpl.
  - repeat constructor.
  - destruct (before y x) eqn:E.
    + constructor; [done|].
      rewrite insert_by_Permutation. constructor; [|done].
      by apply before_asym.
    + constructor; [by constructor|].
      constructor; [done|].
      eapply Forall_impl; [exact Hy|].
      intros z Hz. by eapply not_before_trans.
Qed.

Lemma sort_by_sorted l : StronglySorted (may_precede before) (sort_by before l).
Proof.
  induction l as [|x l IH]; simpl; [constructor|].
  by apply insert_by_sorted.
Qed.
End Ordered.
End SortBy.

Lemma StronglySorted_mono {A} (R S : A → A → Prop) l :
  (∀ x y, R x y → S x y) → StronglySorted R l → StronglySorted S l.
Proof.
  intros HRS. induction 1 as [|x l Hl IH Hx]; constructor; [done|].
  eapply Forall_impl; [exact Hx|]. intros y. apply HRS.
Qed.

(** [sorted(l, key=key)]: ascending by key, a permutation, stable. *)
Lemma sorted_key_sorted {A} (key : A → Z) l :
  StronglySorted (λ x y, (key x ≤ key y)%Z) (sorted_key key l).
Proof.
  eapply StronglySorted_mono;
    [|apply (sort_by_sorted (λ y x, (key y <? key x)%Z))].
  - unfold may_precede. intros x y. simpl. lia.
  - intros x y. simpl. lia.
  - intros x y z. simpl. lia.
Qed.

Lemma sorted_key_stable {A} (key : A → Z) (k : Z) l :
  filter (λ x, key x = k) (sorted_key key l) = filter (λ x, key x = k) l.
Proof.
  apply (sort_by_stable (λ y x, (key y <? key x)%Z)).
  intros x y. simpl. lia.
Qed.

(** [l.sort(key=key, reverse=True)]: descending by key. *)
Lemma Qltb_lt x y : Qltb x y = true ↔ (x < y)%Q.
Proof.
  unfold Qltb. rewrite negb_true_iff, <- not_true_iff_false, Qle_bool_iff.
  split; [apply Qnot_le_lt | apply Qlt_not_le].
Qed.

Lemma Qltb_ge x y : Qltb x y = false ↔ (y <= x)%Q.
Proof.
  unfold Qltb. rewrite negb_false_iff. apply Qle_bool_iff.
Qed.

Lemma sort_key_reverse_sorted {A} (key : A → Q) l :
  StronglySorted (λ x y, (key y <= key x)%Q) (sort_key_reverse key l).
Proof.
  eapply StronglySorted_mono;
    [|apply (sort_by_sorted (λ y x, Qltb (key x) (key y)))].
  - unfold may_precede. intros x y. simpl. by rewrite Qltb_ge.
  - intros x y. simpl. rewrite Qltb_lt, Qltb_ge. apply Qlt_le_weak.
  - intros x y z. simpl. rewrite !Qltb_ge. intros ??. by eapply Qle_trans.
Qed.

End SortFacts.

(** ** Results and exceptions *)

Module ResultFacts.

Lemma bind_Ok_inv {A B} (m : result A) (k : A → result B) b :
  m ≫= k = Ok b → ∃ a, m = Ok a ∧ k a = Ok b.
Proof. destruct m as [a|e]; [by exists a | done]. Qed.

Lemma bind_Raise_inv {A B} (m : result A) (k : A → result B) e :
  m ≫= k = Raise e → m = Raise e ∨ ∃ a, m = Ok a ∧ k a = Raise e.
Proof.
  destruct m as [a|e']; simpl.
  - intros Hk. right. by exists a.
  - intros [= ->]. by left.
Qed.

Lemma mapM_Raise {A B} (f : A → result B) l e :
  mapM f l = Raise e → ∃ x, x ∈ l ∧ f x = Raise e.
Proof.
  induction l as [|x l IH]; [done|].
  cbn [mapM]. intros [Hx|(y & _ & Hk)]%bind_Raise_inv.
  - exists x. split; [by left|done].
  - apply bind_Raise_inv in Hk as [Hl|(k & _ & ?)]; [|done].
    destruct (IH Hl) as (x' & ? & ?). exists x'. split; [by right|done].
Qed.

End ResultFacts.

(** ** Recommendation scorer *)

Module ScorerSpec.
Import CourseRecommendation Scorer SortFacts.

Local Open Scope Q_scope.

Lemma min_le_l a b : Py.min a b <= a.
Proof.
  unfold Py.min. destruct (Qltb b a) eqn:E.
  - apply Qlt_le_weak. by apply Qltb_lt.
  - apply Qle_refl.
Qed.

Lemma min_eq_r a b : b <= a → Py.min a b == b.
Proof.
  unfold Py.min. destruct (Qltb b a) eqn:E; [reflexivity|].
  intros Hle. apply Qltb_ge in E. by apply Qle_antisym.
Qed.

Lemma quality_boost_range course :
  0 <= quality_boost course ∧ quality_boost course <= 2 # 10.
Proof.
  unfold quality_boost.
  destruct (Qle_bool _ _), (_ <? _)%Z, (default false _);
    split; vm_compute; discriminate.
Qed.

Lemma preference_boost_terms user_preferences course :
  preference_boost user_preferences course ==
    (if skill_level_matches user_preferences course then 1 # 10 else 0) +
    (if modality_matches user_preferences course then 5 # 100 else 0) +
    (if provider_matches user_preferences course then 5 # 100 else 0) +
    (if duration_fits user_preferences course then 5 # 100 else 0).
Proof.
  unfold preference_boost.
  destruct (skill_level_matches _ _), (modality_matches _ _),
    (provider_matches _ _), (duration_fits _ _); vm_compute; reflexivity.
Qed.

Lemma preference_boost_range user_preferences course :
  0 <= preference_boost user_preferences course ∧
  preference_boost user_preferences course <= 25 # 100.
Proof.
  unfold preference_boost.
  destruct (skill_level_matches _ _), (modality_matches _ _),
    (provider_matches _ _), (duration_fits _ _);
    split; vm_compute; discriminate.
Qed.

(** The clamp the code has: no score exceeds 1. *)
Lemma final_score_le_1 user_preferences course :
  final_score user_preferences course <= 1.
Proof. apply min_le_l. Qed.

(** Without a clamp from below, the score is non-negative as soon as the
    similarity is. *)
Lemma final_score_nonneg user_preferences course :
  0 <= base_score course → 0 <= final_score user_preferences course.
Proof.
  intros Hb. unfold final_score, Py.min.
  destruct (Qltb _ 1); [|done].
  destruct (quality_boost_range course) as [Hq _].
  destruct (preference_boost_range user_preferences course) as [Hp _].
  lra.
Qed.

Lemma analyze_Permutation courses user_preferences :
  analyze_course_recommendations courses user_preferences ≡ₚ
  recommend (default Prefs.empty user_preferences) <$> courses.
Proof.
  unfold analyze_course_recommendations.
  destruct courses; [done|]. apply sort_by_Permutation.
Qed.

(** C1, at the failing input: a candidate of similarity -0.5 and no
    preferences gets the recommendation score -0.5, which is below 0; the
    sum of the similarity and the boosts is clamped from above only. *)
Theorem negative_similarity_negative_score :
  recommendation_score <$>
    analyze_course_recommendations [Inputs.negative_candidate] None
  = [- (1 # 2)] ∧ - (1 # 2) < 0.
Proof. split; [vm_compute; reflexivity | reflexivity]. Qed.

(** C5: the recommendations returned by the scorer are in non-increasing
    order of [recommendation_score], for every candidate list and every
    preferences dict. *)
Theorem recommendations_sorted courses user_preferences :
  StronglySorted
    (λ a b, recommendation_score b <= recommendation_score a)
    (analyze_course_recommendations courses user_preferences).
Proof.
  unfold analyze_course_recommendations.
  destruct courses as [|course courses']; [constructor|].
  apply sort_key_reverse_sorted.
Qed.

(** *** Letter case in the skill-level test *)

Lemma lower_char_idemp c : lower_char (lower_char c) = lower_char c.
Proof. by destruct c as [[] [] [] [] [] [] [] []]. Qed.

Lemma lower_idemp s : lower (lower s) = lower s.
Proof.
  induction s as [|c s IH]; simpl; [done|].
  by rewrite lower_char_idemp, IH.
Qed.

(** C9 as stated fails: the preference "Beginner" and the level
    "beginner" are equal up to letter case, yet the skill-level test is
    false and the candidate is scored 0.5, without the +0.10 that the
    preference "beginner" earns it. *)
Lemma capitalised_preference_unmatched :
  lower "Beginner" = lower "beginner" ∧
  skill_level_matches (Inputs.prefers_level "Beginner")
                      (Inputs.leveled "beginner") = false ∧
  recommendation_score <$>
    analyze_course_recommendations [Inputs.leveled "beginner"]
      (Some (Inputs.prefers_level "Beginner")) = [1 # 2] ∧
  Forall2 Qeq
    (recommendation_score <$>
       analyze_course_recommendations [Inputs.leveled "beginner"]
         (Some (Inputs.prefers_level "beginner")))
    [6 # 10].
Proof.
  split_and!; [reflexivity | reflexivity | vm_compute; reflexivity |].
  repeat constructor.
Qed.

(** C9, amended: the +0.10 of the skill level is added exactly when the
    preferred [skill_level] is the candidate's level in lower case.  So a
    preference written in lower case matches every casing of the
    candidate's level, and a preference with a capital letter matches no
    candidate. *)
Theorem skill_level_boost user_preferences course s :
  Prefs.skill_level user_preferences = Some s →
  let lvl := default "" (Course.level course) in
  (skill_level_matches user_preferences course = true ↔ s = lower lvl) ∧
  (lower s = s → lower lvl = lower s →
   skill_level_matches user_preferences course = true) ∧
  (lower s ≠ s → skill_level_matches user_preferences course = false) ∧
  preference_boost user_preferences course ==
    (if bool_decide (s = lower lvl) then 1 # 10 else 0) +
    (if modality_matches user_preferences course then 5 # 100 else 0) +
    (if provider_matches user_preferences course then 5 # 100 else 0) +
    (if duration_fits user_preferences course then 5 # 100 else 0).
Proof.
  intros Hs lvl.
  assert (Hiff : skill_level_matches user_preferences course = true
                 ↔ s = lower lvl).
  { unfold skill_level_matches. rewrite Hs, bool_decide_eq_true.
    split; [by intros [= ->] | by intros ->]. }
  split_and!.
  - exact Hiff.
  - intros Hlow Heq. apply Hiff. congruence.
  - intros Hup. apply not_true_iff_false. rewrite Hiff. intros ->.
    by rewrite lower_idemp in Hup.
  - rewrite preference_boost_terms.
    assert (skill_level_matches user_preferences course
            = bool_decide (s = lower lvl)) as ->; [|reflexivity].
    apply eq_true_iff_eq. by rewrite Hiff, bool_decide_eq_true.
Qed.

Lemma skill_level_boost_witness :
  skill_level_matches (Inputs.prefers_level "beginner")
                      (Inputs.leveled "BeGiNnEr") = true.
Proof.
  apply (skill_level_boost (Inputs.prefers_level "beginner")
           (Inputs.leveled "BeGiNnEr") "beginner"); reflexivity.
Defined.

(** *** Candidates without a similarity score *)

(** C10: a candidate dict without [similarity_score] is scored from the
    base 0.5 and its recommendation retains 0.5 as [similarity_score]; it
    is not rejected: the output has one recommendation per candidate. *)
Theorem missing_similarity_defaults courses user_preferences course :
  course ∈ courses →
  Course.similarity_score course = None →
  let prefs := default Prefs.empty user_preferences in
  let r := recommend prefs course in
  base_score course = 1 # 2 ∧
  r ∈ analyze_course_recommendations courses user_preferences ∧
  similarity_score r = 1 # 2 ∧
  recommendation_score r =
    Py.min 1 ((1 # 2) + quality_boost course + preference_boost prefs course) ∧
  length (analyze_course_recommendations courses user_preferences)
  = length courses.
Proof.
  intros Hin Hnone prefs r.
  assert (Hb : base_score course = 1 # 2) by (unfold base_score; by rewrite Hnone).
  split_and!.
  - exact Hb.
  - rewrite analyze_Permutation. by apply list_elem_of_fmap_2.
  - exact Hb.
  - simpl. unfold final_score. by rewrite Hb.
  - by rewrite analyze_Permutation, length_fmap.
Qed.

Lemma missing_similarity_defaults_witness :
  similarity_score
    (recommend Prefs.empty Inputs.unscored_candidate) = 1 # 2 ∧
  recommendation_score
    (recommend Prefs.empty Inputs.unscored_candidate) =
  Py.min 1 ((1 # 2) + quality_boost Inputs.unscored_candidate
            + preference_boost Prefs.empty Inputs.unscored_candidate).
Proof.
  pose proof (missing_similarity_defaults
                [Inputs.negative_candidate; Inputs.unscored_candidate] None
                Inputs.unscored_candidate) as H.
  destruct H as (_ & _ & Hs & Hr & _).
  - apply list_elem_of_In. simpl. auto.
  - reflexivity.
  - split; [exact Hs | exact Hr].
Defined.

End ScorerSpec.

(** ** Path builder *)

Module PathBuilderSpec.
Import CourseRecommendation PathBuilder SortFacts.

Lemma slice_to_nonneg {A} (n : nat) (l : list A) :
  slice_to (Z.of_nat n) l = take n l.
Proof.
  unfold slice_to. destruct (Z.ltb_spec (Z.of_nat n) 0); [lia|].
  by rewrite Nat2Z.id.
Qed.

(** The courses of the path of a non-empty candidate list. *)
Lemma path_courses courses target_skill_level :
  LearningPath.courses (generate_learning_path courses target_skill_level) =
  imap (λ i course,
          path_recommendation (position_reason (length courses) i) course)
       (take 6 (sorted_key level_key courses)).
Proof.
  unfold generate_learning_path. destruct courses as [|c cs]; [done|].
  cbv zeta. cbn [LearningPath.courses].
  change 6%Z with (Z.of_nat 6). rewrite slice_to_nonneg.
  unfold sorted_key at 1. by rewrite sort_by_length.
Qed.

(** A missing level sorts as "intermediate" and is reported as the empty
    level: both have the ordinal 2. *)
Lemma ordinal_of_path_recommendation reason course :
  level_ordinal (level (path_recommendation reason course)) = level_key course.
Proof.
  unfold level_key. simpl. by destruct (Course.level course).
Qed.

Lemma with_reason_path_recommendation reason reason' course :
  with_reason reason' (path_recommendation reason course)
  = path_recommendation reason' course.
Proof. done. Qed.

Lemma StronglySorted_fmap_inv {A B} (f : A → B) (R : relation B) l :
  StronglySorted R (f <$> l) → StronglySorted (λ x y, R (f x) (f y)) l.
Proof.
  induction l as [|x l IH]; [constructor|].
  rewrite fmap_cons.
  intros [Hl Hx]%StronglySorted_inv. constructor; [by apply IH|].
  by rewrite Forall_fmap in Hx.
Qed.

Lemma filter_fmap_iff {A B} (f : A → B) (P : B → Prop) (Q : A → Prop)
    `{!∀ y, Decision (P y)} `{!∀ x, Decision (Q x)} (l : list A) :
  (∀ x, P (f x) ↔ Q x) → filter P (f <$> l) = f <$> filter Q l.
Proof.
  intros HPQ. induction l as [|x l IH]; [done|].
  rewrite fmap_cons, !filter_cons, IH.
  destruct (decide (P (f x))) as [HP|HP], (decide (Q x)) as [HQ|HQ];
    [done| destruct HQ | destruct HP |done]; by apply HPQ.
Qed.

(** C4: the path of a non-empty candidate list holds at most 6 courses,
    in non-decreasing order of skill ordinal (beginner 1, intermediate 2,
    advanced 3, expert 4, any other or missing level 2); the courses of
    one ordinal are the first of that ordinal in the input, in input
    order. *)
Theorem path_bounded_sorted_stable courses target_skill_level :
  courses ≠ [] →
  let path := generate_learning_path courses target_skill_level in
  (length (LearningPath.courses path) ≤ 6)%nat ∧
  StronglySorted
    (λ a b, (level_ordinal (level a) ≤ level_ordinal (level b))%Z)
    (LearningPath.courses path) ∧
  ∀ k : Z,
    filter (λ r, level_ordinal (level r) = k)
           (with_reason "" <$> LearningPath.courses path)
    `prefix_of`
    filter (λ r, level_ordinal (level r) = k)
           (path_recommendation "" <$> courses).
Proof.
  intros _ path. subst path. rewrite path_courses.
  set (sorted := sorted_key level_key courses).
  split_and!.
  - rewrite length_imap, length_take. lia.
  - apply StronglySorted_fmap_inv with (f := level_ordinal ∘ level)
                                       (R := Z.le).
    rewrite fmap_imap.
    rewrite (imap_ext _ (const level_key)), imap_const
      by (intros; apply ordinal_of_path_recommendation).
    apply (StronglySorted_fmap level_key (λ x y, (level_key x ≤ level_key y)%Z));
      [done|].
    apply StronglySorted_app_1_l with (l2 := drop 6 sorted).
    rewrite take_drop. apply sorted_key_sorted.
  - intros k. rewrite fmap_imap.
    rewrite (imap_ext _ (const (path_recommendation ""))), imap_const by done.
    rewrite !(filter_fmap_iff _ _ (λ x, level_key x = k))
      by (intros c; by rewrite ordinal_of_path_recommendation).
    rewrite <- (sorted_key_stable level_key k courses).
    fold sorted.
    exists (path_recommendation "" <$>
              filter (λ x, level_key x = k) (drop 6 sorted)).
    by rewrite <- fmap_app, <- filter_app, take_drop.
Qed.

Lemma path_bounded_sorted_stable_witness :
  (length (LearningPath.courses
             (generate_learning_path Inputs.three_courses None)) ≤ 6)%nat.
Proof.
  apply (path_bounded_sorted_stable Inputs.three_courses None).
  discriminate.
Defined.

(** *** The reason of the last course *)

(** The last course of a path takes the reason of index
    [min (len courses) 6 - 1], judged against [len courses]. *)
Lemma last_reason courses target_skill_level :
  courses ≠ [] →
  last (recommendation_reason <$>
          LearningPath.courses
            (generate_learning_path courses target_skill_level))
  = Some (position_reason (length courses) (length courses `min` 6 - 1)).
Proof.
  intros Hne. rewrite path_courses, fmap_imap.
  rewrite (imap_ext _ (λ i _, position_reason (length courses) i)) by done.
  rewrite imap_seq_0, length_take.
  unfold sorted_key. rewrite sort_by_length.
  assert (∃ m, 6 `min` length courses = S m) as [m Hm].
  { destruct courses; [done|]. simpl. eexists. reflexivity. }
  rewrite Hm, seq_S, fmap_app, list_fmap_singleton, last_snoc.
  do 2 f_equal. lia.
Qed.

(** Up to six candidates the last course is the one to master the
    subject with. *)
Lemma last_reason_advanced courses target_skill_level :
  (2 ≤ length courses ≤ 6)%nat →
  last (recommendation_reason <$>
          LearningPath.courses
            (generate_learning_path courses target_skill_level))
  = Some "Advanced course to master the subject area".
Proof.
  intros Hlen. rewrite last_reason by (destruct courses; [simpl in *; lia|done]).
  f_equal. unfold position_reason.
  destruct (Nat.eqb_spec (length courses `min` 6 - 1) 0); [lia|].
  destruct (Z.ltb_spec (Z.of_nat (length courses `min` 6 - 1))
                       (Z.of_nat (length courses) - 1)); [lia|done].
Qed.

(** From seven candidates on, the sixth and last course of the path is
    judged against the number of candidates and gets the reason of an
    interior course. *)
Lemma last_reason_truncated courses target_skill_level :
  (7 ≤ length courses)%nat →
  last (recommendation_reason <$>
          LearningPath.courses
            (generate_learning_path courses target_skill_level))
  = Some "Builds upon previous concepts and introduces new skills".
Proof.
  intros Hlen. rewrite last_reason by (destruct courses; [simpl in *; lia|done]).
  f_equal. unfold position_reason.
  destruct (Nat.eqb_spec (length courses `min` 6 - 1) 0); [lia|].
  destruct (Z.ltb_spec (Z.of_nat (length courses `min` 6 - 1))
                       (Z.of_nat (length courses) - 1)); [done|lia].
Qed.

(** C8, at the failing input: of seven candidates the path keeps six, and
    its last course carries the reason of an interior course, not
    "Advanced course to master the subject area". *)
Theorem seven_candidates_last_reason :
  length (LearningPath.courses
            (generate_learning_path Inputs.seven_courses None)) = 6%nat ∧
  last (recommendation_reason <$>
          LearningPath.courses
            (generate_learning_path Inputs.seven_courses None))
  = Some "Builds upon previous concepts and introduces new skills".
Proof. split; vm_compute; reflexivity. Qed.

End PathBuilderSpec.

(** ** Gap analyzer *)

Module GapAnalyzerSpec.
Import SkillGapAnalysis GapAnalyzer ResultFacts.

(** [list(set(l))]: no longer than [l], as long when [l] has no
    duplicates, and empty only for an empty [l]. *)
Lemma set_iter_length_le l : (length (set_iter l) ≤ length l)%nat.
Proof.
  unfold set_iter.
  apply submseteq_length, NoDup_submseteq; [apply NoDup_elements|].
  intros x. rewrite elem_of_elements. set_solver.
Qed.

Lemma set_iter_length_NoDup l : NoDup l → length (set_iter l) = length l.
Proof. intros Hl. by apply (size_list_to_set (C := gset string)). Qed.

Lemma set_iter_nil_iff l : length (set_iter l) = 0%nat ↔ l = [].
Proof.
  split; [|by intros ->].
  unfold set_iter. intros Hlen%length_zero_iff_nil%elements_empty_inv.
  destruct l as [|x l]; [done|]. set_solver.
Qed.

Lemma record_finding_paired gap issue f :
  paired f → paired (record_finding gap issue f).
Proof. unfold paired. simpl. rewrite !length_app. simpl. lia. Qed.

Lemma foldl_paired {A} (step : Findings → A → Findings) l f :
  (∀ f x, paired f → paired (step f x)) → paired f → paired (foldl step f l).
Proof.
  intros Hstep. revert f. induction l as [|x l IH]; simpl; [done|].
  intros f Hf. by apply IH, Hstep.
Qed.

Lemma analyze_course_paired user_background completed_courses f course :
  paired f → paired (analyze_course user_background completed_courses f course).
Proof.
  intros Hf. unfold analyze_course. apply foldl_paired.
  - intros f' prereq Hf'. destruct (prereq_met _ _ _); [done|].
    by apply record_finding_paired.
  - destruct (_ && _); [by apply record_finding_paired|done].
Qed.

Lemma collect_findings_paired target_courses user_background completed_courses :
  paired (collect_findings target_courses user_background completed_courses).
Proof.
  unfold collect_findings. apply foldl_paired; [|done].
  intros. by apply analyze_course_paired.
Qed.

Lemma severity_of_count_cases n :
  (severity_of_count n = "Low" ↔ n = 0)%nat ∧
  (severity_of_count n = "Medium" ↔ 1 ≤ n ≤ 2)%nat ∧
  (severity_of_count n = "High" ↔ 3 ≤ n)%nat.
Proof.
  unfold severity_of_count.
  destruct (Nat.eqb_spec n 0); [|destruct (Nat.leb_spec n 2)];
    split_and!; split; (done || lia).
Qed.

(** What a returned report satisfies. *)
Lemma report_fields db target_courses user_background completed_courses report :
  perform_skill_gap_analysis db target_courses user_background
    completed_courses = Ok report →
  let f := collect_findings target_courses (default "" user_background)
             (default [] completed_courses) in
  gap_severity report = severity_of_count (length (gaps f)) ∧
  identified_gaps report = set_iter (gaps f) ∧
  prerequisite_issues report = issues f.
Proof.
  intros Hrun. cbv zeta. unfold perform_skill_gap_analysis in Hrun.
  cbv zeta in Hrun.
  destruct (match gaps _ with [] => _ | _ => _ end) as [recs|e];
    simpl in Hrun; [|done].
  by injection Hrun as <-.
Qed.

(** The analyzer raises only what the catalog store raised. *)
Lemma analysis_raises db target_courses user_background completed_courses e :
  perform_skill_gap_analysis db target_courses user_background
    completed_courses = Raise e →
  get_sqlite_connection db = Raise e ∨
  (∃ gap, select_beginner_title db ("%" ++ gap ++ "%") = Raise e) ∨
  close db = Raise e.
Proof.
  unfold perform_skill_gap_analysis. cbv zeta.
  intros [Hrecs|(recs & _ & ?)]%bind_Raise_inv; [|done].
  destruct (gaps _) as [|g gs]; [done|].
  apply bind_Raise_inv in Hrecs as [?|([] & _ & Hrecs)]; [by left|].
  apply bind_Raise_inv in Hrecs as [Hmap|(recs & _ & Hclose)].
  - apply mapM_Raise in Hmap as (gap & _ & Hgap).
    right; left. exists gap. unfold bridge_course in Hgap.
    apply bind_Raise_inv in Hgap as [?|([title|] & _ & ?)]; done.
  - apply bind_Raise_inv in Hclose as [?|([] & _ & ?)]; [|done].
    by right; right.
Qed.

(** C2 as stated fails: three target courses that all require calculus
    leave one deduplicated gap, for which the claim says Medium, and the
    report says High. *)
Lemma repeated_gap_severity :
  ∃ report,
    perform_skill_gap_analysis Inputs.no_match_catalog
      Inputs.calculus_courses None None = Ok report ∧
    identified_gaps report = ["calculus"] ∧
    gap_severity report = "High" ∧
    severity_of_count (length (identified_gaps report)) = "Medium".
Proof. eexists. split; [vm_compute; reflexivity|]. by split_and!. Qed.

(** C2, amended: the severity of a returned report is a function of the
    number of findings recorded before deduplication, which is the length
    of its [prerequisite_issues]: Low iff 0, Medium iff 1 or 2, High iff 3
    or more.  The deduplicated [identified_gaps] is no longer than that
    and empty exactly when it is 0, so Low iff [identified_gaps] is
    empty.  When no gap was recorded twice the two lengths agree, and the
    severity is Medium iff [identified_gaps] has 1 or 2 entries and High
    iff it has 3 or more.  The analyzer returns a report unless the
    catalog store raises. *)
Theorem severity_counts_findings
    db target_courses user_background completed_courses :
  match perform_skill_gap_analysis db target_courses user_background
          completed_courses with
  | Ok report =>
      let n := length (prerequisite_issues report) in
      gap_severity report = severity_of_count n ∧
      (gap_severity report = "Low" ↔ n = 0)%nat ∧
      (gap_severity report = "Medium" ↔ 1 ≤ n ≤ 2)%nat ∧
      (gap_severity report = "High" ↔ 3 ≤ n)%nat ∧
      (length (identified_gaps report) ≤ n)%nat ∧
      (gap_severity report = "Low" ↔ length (identified_gaps report) = 0%nat) ∧
      (NoDup (gaps (collect_findings target_courses
                      (default "" user_background)
                      (default [] completed_courses))) →
       length (identified_gaps report) = n ∧
       gap_severity report
       = severity_of_count (length (identified_gaps report)) ∧
       (gap_severity report = "Medium"
        ↔ 1 ≤ length (identified_gaps report) ≤ 2)%nat ∧
       (gap_severity report = "High"
        ↔ 3 ≤ length (identified_gaps report))%nat)
  | Raise e =>
      get_sqlite_connection db = Raise e ∨
      (∃ gap, select_beginner_title db ("%" ++ gap ++ "%") = Raise e) ∨
      close db = Raise e
  end.
Proof.
  destruct (perform_skill_gap_analysis _ _ _ _) as [report|e] eqn:Hrun;
    [|by eapply analysis_raises].
  apply report_fields in Hrun as (Hsev & Hgaps & Hissues).
  pose proof (collect_findings_paired target_courses
                (default "" user_background)
                (default [] completed_courses)) as Hpair.
  unfold paired in Hpair. rewrite <- Hissues in Hpair.
  intros n. subst n. rewrite Hpair in Hsev.
  destruct (severity_of_count_cases (length (prerequisite_issues report)))
    as (Hlow & Hmed & Hhigh).
  rewrite Hsev, Hgaps. split_and!; [done..| | |].
  - rewrite <- Hpair. apply set_iter_length_le.
  - rewrite Hlow, set_iter_nil_iff, <- Hpair. apply length_zero_iff_nil.
  - intros Hdistinct. apply set_iter_length_NoDup in Hdistinct.
    rewrite Hdistinct, Hpair. by split_and!.
Qed.

Lemma severity_counts_findings_witness :
  ∃ report,
    perform_skill_gap_analysis Inputs.no_match_catalog
      Inputs.two_prerequisites None None = Ok report ∧
    length (identified_gaps report) = 2%nat ∧
    gap_severity report = "Medium".
Proof.
  pose proof (severity_counts_findings Inputs.no_match_catalog
                Inputs.two_prerequisites None None) as Hreport.
  destruct (perform_skill_gap_analysis _ _ _ _) as [report|e] eqn:Hrun;
    [|vm_compute in Hrun; discriminate Hrun].
  exists report. split; [done|].
  destruct Hreport as (_ & _ & _ & _ & _ & _ & Hdistinct).
  destruct Hdistinct as (Hlen & _ & Hmedium & _).
  { apply (bool_decide_unpack _). vm_compute. exact I. }
  assert (length (prerequisite_issues report) = 2%nat) as Hissues.
  { vm_compute in Hrun. injection Hrun as <-. reflexivity. }
  rewrite Hissues in Hlen. split; [exact Hlen|].
  apply Hmedium. rewrite Hlen. split; repeat constructor.
Defined.

End GapAnalyzerSpec.

(** ** Vector retriever *)

Module RetrieverSpec.
Import CourseSearchResult Retriever ResultFacts SortFacts.

Lemma slice_to_length_le {A} (n : Z) (l : list A) :
  (0 ≤ n)%Z → (length (slice_to n l) ≤ Z.to_nat n)%nat.
Proof.
  intros Hn. unfold slice_to. destruct (Z.ltb_spec n 0); [lia|].
  rewrite length_take. lia.
Qed.

Lemma rank_length_le limit similarities :
  (0 ≤ limit)%Z → (length (rank limit similarities) ≤ Z.to_nat limit)%nat.
Proof.
  intros Hn. unfold rank. rewrite length_fmap. by apply slice_to_length_le.
Qed.

(** A normal return of the guarded block is at most [limit] results. *)
Lemma search_body_length w query_text limit results :
  (0 ≤ limit)%Z →
  search_body w query_text limit = Ok results →
  (length results ≤ Z.to_nat limit)%nat.
Proof.
  intros Hn. unfold search_body.
  intros (q & _ & H)%bind_Ok_inv.
  apply bind_Ok_inv in H as (_ & _ & H).
  apply bind_Ok_inv in H as (_ & _ & H).
  apply bind_Ok_inv in H as (_ & _ & H).
  apply bind_Ok_inv in H as (_ & _ & H).
  apply bind_Ok_inv in H as (rows & _ & H).
  apply bind_Ok_inv in H as (similarities & _ & H).
  apply bind_Ok_inv in H as (_ & _ & [= <-]).
  by apply rank_length_le.
Qed.

(** The outcome of a call whose setup succeeded. *)
Lemma search_after_setup w query_text limit :
  search_setup w query_text = Ok () →
  search_courses_by_vector w query_text limit =
  match search_body w query_text (default 3%Z limit) with
  | Ok results => Ok results
  | Raise e =>
      if is_auth_error e then Raise e else Ok [sample_result query_text]
  end.
Proof. unfold search_courses_by_vector. by intros ->. Qed.

Lemma search_setup_failed w query_text limit e :
  search_setup w query_text = Raise e →
  search_courses_by_vector w query_text limit = Raise e.
Proof. unfold search_courses_by_vector. by intros ->. Qed.

(** What the setup raises: the three checks of the code, or what the
    embeddings client or the directory creation raised. *)
Lemma search_setup_raises w query_text e :
  search_setup w query_text = Raise e →
  e = value_error "query_text is required and must be a string" ∨
  e = value_error "WATSONX_API_KEY environment variable is required" ∨
  e = value_error "WATSONX_PROJECT_ID environment variable is required" ∨
  (∃ project_id api_key, new_embeddings w project_id api_key = Raise e) ∨
  makedirs w = Raise e.
Proof.
  unfold search_setup.
  destruct (negb (truthy_str query_text)); [intros [= <-]; by left|].
  destruct (negb (truthy_opt _ (getenv w "WATSONX_API_KEY")));
    [intros [= <-]; by right; left|].
  destruct (negb (truthy_opt _ (getenv w "WATSONX_PROJECT_ID")));
    [intros [= <-]; by right; right; left|].
  intros [H|([] & _ & H)]%bind_Raise_inv.
  - right; right; right; left. eauto.
  - by right; right; right; right.
Qed.

(** What the guarded block raises is what one of its calls raised; of the
    extension load, anything but an [OperationalError]. *)
Lemma loads_or_empty_raises w col e :
  loads_or_empty w col = Raise e → ∃ text, json_loads w text = Raise e.
Proof. unfold loads_or_empty. destruct (truthy_opt _ _); [eauto|done]. Qed.

Lemma similarity_item_raises w reference row blob e :
  similarity_item w reference row blob = Raise e →
  frombuffer w blob = Raise e ∨
  (∃ v, cosine w reference v = Raise e) ∨
  (∃ text, json_loads w text = Raise e).
Proof.
  unfold similarity_item.
  intros [?|(v & _ & H)]%bind_Raise_inv; [by left|].
  apply bind_Raise_inv in H as [?|(sim & _ & H)]; [right; left; eauto|].
  right; right.
  apply bind_Raise_inv in H as [?|(? & _ & H)];
    [by eapply loads_or_empty_raises|].
  apply bind_Raise_inv in H as [?|(? & _ & H)];
    [by eapply loads_or_empty_raises|].
  apply bind_Raise_inv in H as [?|(? & _ & H)];
    [by eapply loads_or_empty_raises|done].
Qed.

Lemma collect_similarities_raises w reference rows e :
  collect_similarities w reference rows = Raise e →
  (∃ blob, frombuffer w blob = Raise e) ∨
  (∃ v, cosine w reference v = Raise e) ∨
  (∃ text, json_loads w text = Raise e).
Proof.
  induction rows as [|row rows IH]; [done|].
  cbn [collect_similarities].
  destruct (truthy_opt _ _); [|done].
  intros [H|(item & _ & H)]%bind_Raise_inv.
  - apply similarity_item_raises in H as [?|[?|?]]; eauto.
  - apply bind_Raise_inv in H as [?|(? & _ & ?)]; [auto|done].
Qed.

Lemma search_body_raises w query_text limit e :
  search_body w query_text limit = Raise e →
  embed_query w query_text = Raise e ∨
  sqlite_connect w = Raise e ∨
  enable_load_extension w = Raise e ∨
  (load_extension w "vec0" = Raise e ∧ exn_type e ≠ "OperationalError") ∨
  create_table w = Raise e ∨
  course_catalog w = Raise e ∨
  (∃ blob, frombuffer w blob = Raise e) ∨
  (∃ q v, cosine w q v = Raise e) ∨
  (∃ text, json_loads w text = Raise e) ∨
  conn_close w = Raise e.
Proof.
  unfold search_body.
  intros [?|(q & _ & H)]%bind_Raise_inv; [by left|]. right.
  apply bind_Raise_inv in H as [?|(? & _ & H)]; [by left|]. right.
  apply bind_Raise_inv in H as [?|(? & _ & H)]; [by left|]. right.
  apply bind_Raise_inv in H as [Hext|(? & _ & H)].
  { left. destruct (load_extension w "vec0") as [|e']; [done|].
    case_bool_decide; [done|]. by injection Hext as ->. }
  right.
  apply bind_Raise_inv in H as [?|(? & _ & H)]; [by left|]. right.
  apply bind_Raise_inv in H as [?|(rows & _ & H)]; [by left|]. right.
  apply bind_Raise_inv in H as [H|(? & _ & H)].
  { apply collect_similarities_raises in H as [?|[[v ?]|?]]; eauto 10. }
  apply bind_Raise_inv in H as [?|(? & _ & H)]; [|done].
  by do 3 right.
Qed.

(** C3 as stated fails: after the query check, a missing API key and a
    data directory that cannot be created both end the call with an
    exception that is not an authentication error; no sample result is
    returned. *)
Lemma setup_failures_propagate :
  (∃ e, search_courses_by_vector Inputs.no_api_key "python" None = Raise e ∧
        is_auth_error e = false) ∧
  (∃ e, search_courses_by_vector Inputs.read_only_disk "python" None = Raise e ∧
        is_auth_error e = false).
Proof. split; eexists; (split; [vm_compute; reflexivity | reflexivity]). Qed.

(** C3, amended: a failure inside the guarded block (embedding the query,
    opening and reading the store, ranking, closing) is raised again if
    and only if it is an authentication error, and any other failure
    there gives a normal return of exactly one sample result.  A failure
    before the block (the query and environment checks, the embeddings
    client, the data directory) is raised whatever its kind; nothing else
    is raised. *)
Theorem search_failure_handling w query_text limit e :
  (search_setup w query_text = Raise e →
   search_courses_by_vector w query_text limit = Raise e) ∧
  (search_setup w query_text = Ok () →
   search_body w query_text (default 3%Z limit) = Raise e →
   (is_auth_error e = true ∧
    search_courses_by_vector w query_text limit = Raise e) ∨
   (is_auth_error e = false ∧
    search_courses_by_vector w query_text limit
    = Ok [sample_result query_text])) ∧
  (search_courses_by_vector w query_text limit = Raise e →
   search_setup w query_text = Raise e ∨
   (search_body w query_text (default 3%Z limit) = Raise e ∧
    is_auth_error e = true)).
Proof.
  split_and!.
  - apply search_setup_failed.
  - intros Hsetup Hbody. rewrite (search_after_setup _ _ _ Hsetup), Hbody.
    destruct (is_auth_error e); [by left | by right].
  - destruct (search_setup w query_text) as [[]|e'] eqn:Hsetup.
    + rewrite (search_after_setup _ _ _ Hsetup).
      destruct (search_body _ _ _) as [results|e'']; [done|].
      destruct (is_auth_error e'') eqn:Hauth; [|done].
      intros [= ->]. by right.
    + rewrite (search_setup_failed _ _ _ _ Hsetup). intros [= ->]. by left.
Qed.

Lemma search_failure_handling_witness :
  search_courses_by_vector Inputs.store_down "python" None
  = Ok [sample_result "python"] ∧
  search_courses_by_vector Inputs.key_rejected "python" None
  = Raise {| exn_type := "ApiRequestFailure";
             exn_msg := "Status code: 401, Unauthorized" |}.
Proof.
  split.
  - destruct (search_failure_handling Inputs.store_down "python" None
                {| exn_type := "OperationalError";
                   exn_msg := "unable to open database file" |})
      as (_ & [[Hauth _]|[_ Hsample]] & _);
      [reflexivity | reflexivity | discriminate Hauth | exact Hsample].
  - destruct (search_failure_handling Inputs.key_rejected "python" None
                {| exn_type := "ApiRequestFailure";
                   exn_msg := "Status code: 401, Unauthorized" |})
      as (_ & [[_ Hraise]|[Hauth _]] & _);
      [reflexivity | reflexivity | exact Hraise | discriminate Hauth].
Defined.

(** *** The default limit *)

(** C7 as stated fails: over four embedded courses a call without
    [limit] returns three results and a call with [limit=10] returns
    four. *)
Lemma default_limit_differs_from_ten :
  ∃ by_default with_ten,
    search_courses_by_vector Inputs.healthy "python" None = Ok by_default ∧
    search_courses_by_vector Inputs.healthy "python" (Some 10%Z)
    = Ok with_ten ∧
    length by_default = 3%nat ∧ length with_ten = 4%nat ∧
    search_courses_by_vector Inputs.healthy "python" None ≠
    search_courses_by_vector Inputs.healthy "python" (Some 10%Z).
Proof.
  do 2 eexists.
  split; [vm_compute; reflexivity|].
  split; [vm_compute; reflexivity|].
  split_and!; [reflexivity | reflexivity | vm_compute; discriminate].
Qed.

(** C7, amended: a call without [limit] is the call with [limit=3], and
    what it returns has at most 3 results. *)
Theorem default_limit_is_three w query_text :
  search_courses_by_vector w query_text None
  = search_courses_by_vector w query_text (Some 3%Z) ∧
  ∀ results,
    search_courses_by_vector w query_text None = Ok results →
    (length results ≤ 3)%nat.
Proof.
  split; [done|]. intros results Hrun.
  unfold search_courses_by_vector in Hrun.
  apply bind_Ok_inv in Hrun as ([] & _ & Hrun).
  destruct (search_body w query_text _) as [rs|e] eqn:Hbody.
  - injection Hrun as ->.
    by apply search_body_length in Hbody.
  - destruct (is_auth_error e); [done|].
    injection Hrun as <-. simpl. lia.
Qed.

Lemma default_limit_is_three_witness :
  ∃ results,
    search_courses_by_vector Inputs.healthy "python" None = Ok results ∧
    (length results ≤ 3)%nat.
Proof.
  eexists. split; [vm_compute; reflexivity|].
  apply (proj2 (default_limit_is_three Inputs.healthy "python")).
  vm_compute. reflexivity.
Defined.

(** *** A seed course without a stored embedding *)

Lemma no_seed_embedding w course_id limit rows :
  sqlite_connect w = Ok () →
  course_catalog w = Ok rows →
  (∀ row, row ∈ rows → row_course_id row = course_id →
          row_content_embedding row = None) →
  conn_close w = Ok () →
  ∃ msg, get_similar_courses w course_id limit
         = Raise {| exn_type := "UnboundLocalError"; exn_msg := msg |}.
Proof.
  intros Hconnect Hrows Hnone Hclose.
  unfold get_similar_courses. rewrite Hconnect, Hrows. simpl.
  assert (omap row_content_embedding
            (filter (λ row, row_course_id row = course_id) rows) = []) as ->.
  { clear Hrows. induction rows as [|row rows IH]; [done|].
    rewrite filter_cons. destruct (decide _) as [Hid|].
    - simpl. rewrite (Hnone row) by (done || by left).
      apply IH. intros r Hr. apply Hnone. by right.
    - apply IH. intros r Hr. apply Hnone. by right. }
  simpl. rewrite Hclose. simpl. eauto.
Qed.

(** C6, at the failing input: for a course stored without an embedding,
    and for a course absent from the store, the call ends with an
    [UnboundLocalError] on [results], which the early exit reads before
    it is assigned. *)
Theorem seedless_lookup_unbound_local :
  (∃ msg, get_similar_courses Inputs.healthy "e" (Some 3%Z)
          = Raise {| exn_type := "UnboundLocalError"; exn_msg := msg |}) ∧
  (∃ msg, get_similar_courses Inputs.healthy "absent" (Some 3%Z)
          = Raise {| exn_type := "UnboundLocalError"; exn_msg := msg |}).
Proof. split; eexists; vm_compute; reflexivity. Qed.

End RetrieverSpec.

(** * Further properties *)

(** ** Recommendation scorer: bounds, order and reasons *)

Module ScorerMore.
Import CourseRecommendation Scorer SortFacts ScorerSpec.

Local Open Scope Q_scope.

Lemma min_mono_r a b c : b <= c → Py.min a b <= Py.min a c.
Proof.
  unfold Py.min. intros Hbc.
  destruct (Qltb b a) eqn:Hb, (Qltb c a) eqn:Hc;
    rewrite ?Qltb_lt, ?Qltb_ge in *; lra.
Qed.

(** X1: no recommendation returned by the scorer has a score above 1. *)
Theorem scores_at_most_one courses user_preferences :
  Forall (λ r, recommendation_score r <= 1)
         (analyze_course_recommendations courses user_preferences).
Proof.
  rewrite analyze_Permutation, Forall_fmap.
  apply Forall_forall. intros course _. apply final_score_le_1.
Qed.

(** X2: when no candidate has a negative similarity (a missing one counts
    as 0.5), no recommendation has a negative score. *)
Theorem scores_nonnegative courses user_preferences :
  (∀ course s, course ∈ courses →
               Course.similarity_score course = Some s → 0 <= s) →
  Forall (λ r, 0 <= recommendation_score r)
         (analyze_course_recommendations courses user_preferences).
Proof.
  intros Hsim. rewrite analyze_Permutation, Forall_fmap.
  apply Forall_forall. intros course Hin. apply final_score_nonneg.
  unfold base_score. destruct (Course.similarity_score course) eqn:Hs; simpl.
  - by eapply Hsim.
  - lra.
Qed.

Lemma scores_nonnegative_witness :
  Forall (λ r, 0 <= recommendation_score r)
         (analyze_course_recommendations
            [Inputs.popular_candidate; Inputs.unscored_candidate] None).
Proof.
  apply scores_nonnegative. intros course s Hin Hs.
  apply list_elem_of_In in Hin. simpl in Hin.
  destruct Hin as [<-|[<-|[]]]; [|discriminate Hs].
  injection Hs as <-. discriminate.
Defined.

(** X3: the scorer returns one recommendation per candidate, and
    candidates of equal score keep the order of the input. *)
Theorem recommendations_stable courses user_preferences :
  let scored :=
    recommend (default Prefs.empty user_preferences) <$> courses in
  analyze_course_recommendations courses user_preferences ≡ₚ scored ∧
  length (analyze_course_recommendations courses user_preferences)
  = length courses ∧
  ∀ q : Q,
    filter (λ r, Qeq_bool (recommendation_score r) q)
           (analyze_course_recommendations courses user_preferences)
    = filter (λ r, Qeq_bool (recommendation_score r) q) scored.
Proof.
  intros scored. split_and!.
  - apply analyze_Permutation.
  - by rewrite analyze_Permutation, length_fmap.
  - intros q. unfold analyze_course_recommendations.
    destruct courses as [|course courses']; [done|].
    apply (sort_by_stable _ (λ r, Qeq_bool (recommendation_score r) q)).
    intros x y Hx%Is_true_true%Qeq_bool_iff Hy%Is_true_true%Qeq_bool_iff.
    apply Qltb_ge. rewrite Hx, Hy. apply Qle_refl.
Qed.

(** X4: preferences never lower a score: every candidate is scored with
    the preferences at least as high as without any, and at least
    [min(1, similarity)]. *)
Theorem preferences_never_lower courses user_preferences course :
  course ∈ courses →
  recommend user_preferences course
    ∈ analyze_course_recommendations courses (Some user_preferences) ∧
  recommend Prefs.empty course
    ∈ analyze_course_recommendations courses None ∧
  recommendation_score (recommend Prefs.empty course)
    <= recommendation_score (recommend user_preferences course) ∧
  Py.min 1 (base_score course)
    <= recommendation_score (recommend user_preferences course).
Proof.
  intros Hin.
  destruct (preference_boost_range user_preferences course) as [Hp _].
  destruct (quality_boost_range course) as [Hq _].
  split_and!.
  - rewrite analyze_Permutation. by apply list_elem_of_fmap_2.
  - rewrite analyze_Permutation. by apply list_elem_of_fmap_2.
  - simpl. unfold final_score. apply min_mono_r.
    assert (preference_boost Prefs.empty course == 0) as ->
      by (rewrite preference_boost_terms; reflexivity).
    lra.
  - simpl. unfold final_score. apply min_mono_r. lra.
Qed.

Lemma preferences_never_lower_witness :
  recommendation_score (recommend Prefs.empty (Inputs.leveled "Beginner"))
  <= recommendation_score
       (recommend (Inputs.prefers_level "beginner")
                  (Inputs.leveled "Beginner")).
Proof.
  apply (preferences_never_lower
           [Inputs.negative_candidate; Inputs.leveled "Beginner"]).
  apply list_elem_of_In. simpl. auto.
Defined.

(** X5: a reason that says "highly rated by students" is given only to a
    candidate rated 4.0 or more that has a second quality indicator, more
    than 1000 enrollments or a certification; a high rating alone does not
    earn it. *)
Theorem highly_rated_needs_second_indicator user_preferences course :
  contains "highly rated by students"
    (recommendation_reason (recommend user_preferences course)) = true →
  4 <= default 0 (Course.course_rating course) ∧
  ((1000 < default 0 (Course.enrollment_count course))%Z ∨
   Course.certification_offered course = Some true).
Proof.
  simpl. unfold reason, reasons, quality_boost.
  destruct (Qle_bool 4 _) eqn:Hrating;
    destruct (1000 <? _)%Z eqn:Henrol;
    destruct (default false _) eqn:Hcert;
    destruct (Qltb (8 # 10) _);
    destruct (Qltb (5 # 100) (preference_boost _ _));
    intros H; vm_compute in H; try discriminate H; clear H.
  all: split; [by apply Qle_bool_iff|].
  all: try (left; by apply Z.ltb_lt).
  all: right; by destruct (Course.certification_offered course) as [[]|].
Qed.

Lemma highly_rated_needs_second_indicator_witness :
  4 <= default 0 (Course.course_rating Inputs.popular_candidate).
Proof.
  apply (highly_rated_needs_second_indicator Prefs.empty
           Inputs.popular_candidate).
  reflexivity.
Defined.

End ScorerMore.

(** ** Path builder: size, durations, progression and truncation *)

Module PathBuilderMore.
Import CourseRecommendation PathBuilder SortFacts PathBuilderSpec.

(** The path of a non-empty candidate list, field by field. *)
Lemma path_of_nonempty courses target_skill_level :
  courses ≠ [] →
  let sorted_courses := sorted_key level_key courses in
  let selected := take 6 sorted_courses in
  let path := generate_learning_path courses target_skill_level in
  LearningPath.total_duration_hours path
  = foldl (λ total course,
             (total + default 0 (Course.duration_hours course))%Z)
          0%Z selected ∧
  LearningPath.estimated_completion_months path
  = (1 `max` (LearningPath.total_duration_hours path `div` 20))%Z ∧
  LearningPath.skill_progression path
  = sorted_key level_ordinal
      (set_iter ((λ course, default "intermediate" (Course.level course))
                   <$> sorted_courses)).
Proof.
  intros Hne. destruct courses as [|c cs]; [done|].
  cbv zeta. unfold generate_learning_path. cbv zeta.
  cbn [LearningPath.total_duration_hours
         LearningPath.estimated_completion_months
         LearningPath.skill_progression].
  change 6%Z with (Z.of_nat 6). by rewrite slice_to_nonneg.
Qed.

(** X6: a path holds [min(len(courses), 6)] courses. *)
Theorem path_length courses target_skill_level :
  length (LearningPath.courses
            (generate_learning_path courses target_skill_level))
  = (length courses `min` 6)%nat.
Proof.
  rewrite path_courses, length_imap, length_take.
  unfold sorted_key. rewrite sort_by_length. lia.
Qed.

(** X7: the first course of the path of a non-empty candidate list is
    the foundation course, also when it is the only one. *)
Theorem first_reason_foundation courses target_skill_level :
  courses ≠ [] →
  head (recommendation_reason <$>
          LearningPath.courses
            (generate_learning_path courses target_skill_level))
  = Some "Foundation course to establish core knowledge".
Proof.
  intros Hne. rewrite path_courses.
  assert (∃ c l, take 6 (sorted_key level_key courses) = c :: l)
    as (c & l & ->).
  { destruct (sorted_key level_key courses) as [|c l] eqn:Hs.
    - by apply sort_by_nil_inv in Hs.
    - simpl. eauto. }
  done.
Qed.

Lemma first_reason_foundation_witness :
  head (recommendation_reason <$>
          LearningPath.courses
            (generate_learning_path [Inputs.leveled "expert"] None))
  = Some "Foundation course to establish core knowledge".
Proof. by apply first_reason_foundation. Defined.



(** X9: [skill_progression] lists each level of the candidates once (a
    missing level as "intermediate"), in non-decreasing skill ordinal,
    counting also the candidates that the path leaves out. *)
Theorem progression_levels courses target_skill_level :
  let progression :=
    LearningPath.skill_progression
      (generate_learning_path courses target_skill_level) in
  NoDup progression ∧
  StronglySorted (λ a b, (level_ordinal a ≤ level_ordinal b)%Z)
                 progression ∧
  ∀ lvl, lvl ∈ progression ↔
         ∃ course, course ∈ courses ∧
                   default "intermediate" (Course.level course) = lvl.
Proof.
  destruct (decide (courses = [])) as [->|Hne].
  { simpl. split_and!; [constructor | constructor |].
    intros lvl. split; [by intros ?%elem_of_nil|].
    by intros (c & ?%elem_of_nil & _). }
  destruct (path_of_nonempty courses target_skill_level Hne)
    as (_ & _ & Hprog).
  intros progression. subst progression. rewrite Hprog. clear Hprog.
  split_and!.
  - unfold sorted_key at 1. rewrite sort_by_Permutation.
    unfold set_iter. apply NoDup_elements.
  - apply sorted_key_sorted.
  - intros lvl. unfold sorted_key. rewrite sort_by_Permutation.
    unfold set_iter. rewrite elem_of_elements, elem_of_list_to_set.
    rewrite sort_by_Permutation, list_elem_of_fmap.
    split; intros (c & ? & ?); exists c; by split.
Qed.

(** X10: what a path leaves out is never of a lower level than what it
    keeps: the candidates split into the kept ones, which the path lists
    in order, and the others, each of a skill ordinal at least that of
    every kept one. *)
Theorem truncation_keeps_lowest courses target_skill_level :
  ∃ kept dropped,
    courses ≡ₚ kept ++ dropped ∧
    with_reason "" <$>
      LearningPath.courses
        (generate_learning_path courses target_skill_level)
    = path_recommendation "" <$> kept ∧
    length dropped = (length courses - 6)%nat ∧
    ∀ k d, k ∈ kept → d ∈ dropped → (level_key k ≤ level_key d)%Z.
Proof.
  set (sorted := sorted_key level_key courses).
  exists (take 6 sorted), (drop 6 sorted). split_and!.
  - rewrite take_drop. unfold sorted, sorted_key.
    by rewrite sort_by_Permutation.
  - rewrite path_courses, fmap_imap.
    by rewrite (imap_ext _ (const (path_recommendation ""))), imap_const.
  - rewrite length_drop. unfold sorted, sorted_key.
    by rewrite sort_by_length.
  - intros k d Hk Hd.
    pose proof (sorted_key_sorted level_key courses) as Hsorted.
    fold sorted in Hsorted. rewrite <- (take_drop 6 sorted) in Hsorted.
    by eapply (StronglySorted_app_1_elem_of _ _ _ k d) in Hsorted.
Qed.

End PathBuilderMore.

(** ** Gap analyzer: what is reported, and when the store is read *)

Module GapAnalyzerMore.
Import SkillGapAnalysis GapAnalyzer GapFindings ResultFacts GapAnalyzerSpec.

Lemma prereq_loop_gaps user_background completed_courses prereqs f :
  gaps (foldl (λ f prereq,
                 if prereq_met user_background completed_courses prereq
                 then f
                 else record_finding prereq
                        ("Missing prerequisite: " ++ prereq) f)
              f prereqs)
  = (gaps f ++
     filter (λ prereq,
               prereq_met user_background completed_courses prereq = false)
            prereqs)%list.
Proof.
  revert f. induction prereqs as [|p ps IH]; intros f; simpl.
  - by rewrite app_nil_r.
  - rewrite IH, filter_cons.
    destruct (prereq_met _ _ p); simpl; [done|].
    by rewrite <- app_assoc.
Qed.

Lemma analyze_course_gaps user_background completed_courses f course :
  gaps (analyze_course user_background completed_courses f course)
  = (gaps f ++ course_gaps user_background completed_courses course)%list.
Proof.
  unfold analyze_course, course_gaps, level_gap, unmet.
  rewrite prereq_loop_gaps.
  destruct (_ && _); [|done].
  cbn [gaps record_finding]. by rewrite <- app_assoc.
Qed.

Lemma collect_findings_gaps target_courses user_background completed_courses :
  gaps (collect_findings target_courses user_background completed_courses)
  = mjoin (course_gaps user_background completed_courses <$> target_courses).
Proof.
  unfold collect_findings.
  assert (∀ f,
            gaps (foldl (analyze_course user_background completed_courses)
                        f target_courses)
            = (gaps f ++
               mjoin (course_gaps user_background completed_courses
                        <$> target_courses))%list) as H.
  { induction target_courses as [|c cs IH]; intros f; simpl.
    - by rewrite app_nil_r.
    - by rewrite IH, analyze_course_gaps, <- app_assoc. }
  by rewrite H.
Qed.

Lemma mapM_Ok_length {A B} (f : A → result B) l k :
  mapM f l = Ok k → length k = length l.
Proof.
  revert k. induction l as [|x l IH]; intros k; cbn [mapM].
  - by intros [= <-].
  - intros (y & _ & (k' & Hk' & [= <-])%bind_Ok_inv)%bind_Ok_inv.
    simpl. f_equal. by apply IH.
Qed.

(** X11: the [identified_gaps] of a report has no duplicates. *)
Theorem identified_gaps_distinct
    db target_courses user_background completed_courses report :
  perform_skill_gap_analysis db target_courses user_background
    completed_courses = Ok report →
  NoDup (identified_gaps report).
Proof.
  intros (_ & -> & _)%report_fields. unfold set_iter. apply NoDup_elements.
Qed.

Lemma identified_gaps_distinct_witness :
  ∃ report,
    perform_skill_gap_analysis Inputs.no_match_catalog
      Inputs.calculus_courses None None = Ok report ∧
    NoDup (identified_gaps report).
Proof.
  eexists. split; [vm_compute; reflexivity|].
  eapply (identified_gaps_distinct Inputs.no_match_catalog
            Inputs.calculus_courses None None).
  vm_compute. reflexivity.
Defined.

Lemma mapM_Ok_Forall2 {A B} (f : A → result B) l k :
  mapM f l = Ok k → Forall2 (λ x y, f x = Ok y) l k.
Proof.
  revert k. induction l as [|x l IH]; intros k; cbn [mapM].
  - intros [= <-]. constructor.
  - intros (y & Hy & (k' & Hk' & [= <-])%bind_Ok_inv)%bind_Ok_inv.
    constructor; [exact Hy|by apply IH].
Qed.

Lemma bridge_course_Ok db gap suggestion :
  bridge_course db gap = Ok suggestion →
  match select_beginner_title db ("%" ++ gap ++ "%") with
  | Ok (Some title) => suggestion = title
  | Ok None =>
      suggestion
      = "introductory_" ++ replace_char " " "_" (lower gap) ++ "_course"
  | Raise _ => False
  end.
Proof.
  unfold bridge_course.
  destruct (select_beginner_title db _) as [[title|]|e]; simpl;
    congruence.
Qed.

(** X12: a report suggests one additional course for each of the first
    three findings, counted before deduplication, and in their order:
    [min(3, n)] of them for [n] findings.  The suggestion for a finding is
    the title that the catalog store returns for the pattern [%finding%],
    and when the store has none it is [introductory_], the finding in
    lower case with its spaces replaced by underscores, [_course]. *)
Theorem additional_courses_per_finding
    db target_courses user_background completed_courses report :
  perform_skill_gap_analysis db target_courses user_background
    completed_courses = Ok report →
  length (recommended_additional_courses report)
  = (3 `min` length (prerequisite_issues report))%nat ∧
  Forall2
    (λ gap suggestion,
       match select_beginner_title db ("%" ++ gap ++ "%") with
       | Ok (Some title) => suggestion = title
       | Ok None =>
           suggestion
           = "introductory_" ++ replace_char " " "_" (lower gap) ++ "_course"
       | Raise _ => False
       end)
    (take 3 (gaps (collect_findings target_courses
                     (default "" user_background)
                     (default [] completed_courses))))
    (recommended_additional_courses report).
Proof.
  intros Hrun.
  pose proof (report_fields _ _ _ _ _ Hrun) as (_ & _ & Hissues).
  pose proof (collect_findings_paired target_courses
                (default "" user_background)
                (default [] completed_courses)) as Hpair.
  unfold paired in Hpair. rewrite <- Hissues in Hpair. rewrite <- Hpair.
  unfold perform_skill_gap_analysis in Hrun. cbv zeta in Hrun.
  apply bind_Ok_inv in Hrun as (recs & Hrecs & [= <-]).
  cbn [recommended_additional_courses].
  destruct (gaps _) as [|g gs] eqn:Hgaps.
  - injection Hrecs as <-. split; [done|constructor].
  - apply bind_Ok_inv in Hrecs as ([] & _ & Hrecs).
    apply bind_Ok_inv in Hrecs as (recs' & Hmap & Hrecs).
    apply bind_Ok_inv in Hrecs as ([] & _ & [= <-]).
    change 3%Z with (Z.of_nat 3) in Hmap.
    rewrite PathBuilderSpec.slice_to_nonneg in Hmap. split.
    + apply mapM_Ok_length in Hmap. rewrite Hmap, length_take. lia.
    + apply mapM_Ok_Forall2 in Hmap.
      eapply Forall2_impl; [exact Hmap|]. intros gap suggestion.
      apply bridge_course_Ok.
Qed.

Lemma additional_courses_per_finding_witness :
  ∃ report,
    perform_skill_gap_analysis Inputs.calculus_catalog
      Inputs.two_prerequisites None None = Ok report ∧
    recommended_additional_courses report
    = ["Calculus I"; "introductory_statistics_course"].
Proof.
  destruct (perform_skill_gap_analysis _ _ _ _) as [report|e] eqn:Hrun;
    [|vm_compute in Hrun; discriminate Hrun].
  exists report. split; [done|].
  destruct (additional_courses_per_finding _ _ _ _ _ Hrun)
    as (_ & Hsuggested).
  remember (recommended_additional_courses report) as suggested.
  vm_compute in Hsuggested.
  apply Forall2_cons_inv_l in Hsuggested
    as (first & rest & -> & Hsuggested & ->).
  apply Forall2_cons_inv_l in Hsuggested
    as (second & rest' & -> & Hsuggested & ->).
  by apply Forall2_nil_inv_l in Hsuggested as ->.
Defined.

Lemma elem_of_course_gaps user_background completed_courses course g :
  g ∈ course_gaps user_background completed_courses course ↔
  (g = "Intermediate " ++ default "course" (Course.title course) ++
       " knowledge" ∧
   lower (default "intermediate" (Course.level course)) = "advanced" ∧
   contains "beginner" (lower user_background) = true) ∨
  (g ∈ default [] (Course.prerequisites course) ∧
   prereq_met user_background completed_courses g = false).
Proof.
  unfold course_gaps, level_gap, unmet.
  rewrite elem_of_app, list_elem_of_filter.
  destruct (bool_decide _) eqn:Hlevel; simpl.
  - apply bool_decide_eq_true in Hlevel.
    destruct (contains "beginner" _); simpl.
    + rewrite list_elem_of_singleton. intuition congruence.
    + rewrite elem_of_nil. intuition congruence.
  - apply bool_decide_eq_false in Hlevel.
    rewrite elem_of_nil. intuition congruence.
Qed.

(** X13: when every target course is within reach (not an advanced
    course for a beginner) and has all its prerequisites met, the report
    is Low with nothing listed, and the catalog store is not read: the
    report is returned whatever the store does. *)
Theorem ready_targets_need_no_store
    db target_courses user_background completed_courses :
  (∀ course, course ∈ target_courses →
     (lower (default "intermediate" (Course.level course)) ≠ "advanced" ∨
      contains "beginner" (lower (default "" user_background)) = false) ∧
     ∀ prereq, prereq ∈ default [] (Course.prerequisites course) →
       prereq_met (default "" user_background)
                  (default [] completed_courses) prereq = true) →
  perform_skill_gap_analysis db target_courses user_background
    completed_courses
  = Ok {| gap_severity := "Low"; identified_gaps := [];
          prerequisite_issues := [];
          recommended_additional_courses := [] |}.
Proof.
  intros Hready.
  pose proof (collect_findings_paired target_courses
                (default "" user_background)
                (default [] completed_courses)) as Hpair.
  assert (Hgaps : gaps (collect_findings target_courses
                          (default "" user_background)
                          (default [] completed_courses)) = []).
  { rewrite collect_findings_gaps.
    apply elem_of_nil_inv. intros g.
    rewrite list_elem_of_join. intros (l & Hg & Hl).
    apply list_elem_of_fmap in Hl as (course & -> & Hcourse).
    destruct (Hready course Hcourse) as [Hlevel Hmet].
    apply elem_of_course_gaps in Hg
      as [(_ & Hadv & Hbeg)|[Hin Hunmet]].
    - destruct Hlevel; congruence.
    - rewrite (Hmet g Hin) in Hunmet. discriminate. }
  unfold paired in Hpair. rewrite Hgaps in Hpair.
  symmetry in Hpair. apply length_zero_iff_nil in Hpair.
  unfold perform_skill_gap_analysis. cbv zeta. by rewrite Hgaps, Hpair.
Qed.

Lemma ready_targets_need_no_store_witness :
  perform_skill_gap_analysis Inputs.closed_catalog
    [Inputs.requires ["Python"]; Inputs.leveled "Advanced"]
    (Some "I know python well") None
  = Ok {| gap_severity := "Low"; identified_gaps := [];
          prerequisite_issues := [];
          recommended_additional_courses := [] |}.
Proof.
  apply ready_targets_need_no_store. intros course Hin.
  apply list_elem_of_In in Hin. simpl in Hin.
  destruct Hin as [<-|[<-|[]]].
  - split; [by left|]. intros prereq Hp.
    apply list_elem_of_In in Hp. simpl in Hp.
    by destruct Hp as [<-|[]].
  - split; [by right|]. by intros prereq ?%elem_of_nil.
Defined.

(** X14: the gaps of a report are exactly the unmet prerequisites of the
    target courses, and "Intermediate <title> knowledge" for each target
    of level advanced (in any letter case) when the background mentions
    "beginner". *)
Theorem identified_gaps_exact
    db target_courses user_background completed_courses report g :
  perform_skill_gap_analysis db target_courses user_background
    completed_courses = Ok report →
  g ∈ identified_gaps report ↔
  ∃ course, course ∈ target_courses ∧
    ((g = "Intermediate " ++ default "course" (Course.title course) ++
          " knowledge" ∧
      lower (default "intermediate" (Course.level course)) = "advanced" ∧
      contains "beginner" (lower (default "" user_background)) = true) ∨
     (g ∈ default [] (Course.prerequisites course) ∧
      prereq_met (default "" user_background)
                 (default [] completed_courses) g = false)).
Proof.
  intros (_ & -> & _)%report_fields.
  unfold set_iter. rewrite elem_of_elements, elem_of_list_to_set.
  rewrite collect_findings_gaps, list_elem_of_join. split.
  - intros (l & Hg & Hl).
    apply list_elem_of_fmap in Hl as (course & -> & Hcourse).
    exists course. split; [done|]. by apply elem_of_course_gaps.
  - intros (course & Hcourse & Hg). eexists. split.
    + by apply elem_of_course_gaps.
    + by apply list_elem_of_fmap_2.
Qed.

Lemma identified_gaps_exact_witness :
  ∃ report,
    perform_skill_gap_analysis Inputs.no_match_catalog
      Inputs.calculus_courses None None = Ok report ∧
    "calculus" ∈ identified_gaps report.
Proof.
  eexists. split; [vm_compute; reflexivity|].
  eapply (identified_gaps_exact Inputs.no_match_catalog
            Inputs.calculus_courses None None);
    [vm_compute; reflexivity|].
  exists (Inputs.requires ["calculus"]).
  split; [by left|]. right. split; [by left | reflexivity].
Defined.

(** *** More completed courses *)

Lemma prereq_met_more user_background completed more prereq :
  prereq_met user_background completed prereq = true →
  prereq_met user_background (completed ++ more)%list prereq = true.
Proof.
  unfold prereq_met. rewrite existsb_app.
  destruct (contains _ (lower user_background)); [done|]. simpl.
  by intros ->.
Qed.

Lemma filter_length_mono {A} (P Q : A → Prop)
    `{!∀ x, Decision (P x)} `{!∀ x, Decision (Q x)} (l : list A) :
  (∀ x, P x → Q x) → (length (filter P l) ≤ length (filter Q l))%nat.
Proof.
  intros HPQ. induction l as [|x l IH]; [done|].
  rewrite !filter_cons.
  destruct (decide (P x)) as [HP|], (decide (Q x)) as [|HQ]; simpl;
    [lia | by destruct HQ; apply HPQ | lia | lia].
Qed.

Lemma course_gaps_more user_background completed more course :
  (length (course_gaps user_background (completed ++ more)%list course)
   ≤ length (course_gaps user_background completed course))%nat.
Proof.
  unfold course_gaps, unmet. rewrite !length_app.
  apply Nat.add_le_mono_l, filter_length_mono.
  intros prereq Hunmet. apply not_true_iff_false. intros Hmet.
  apply (prereq_met_more _ _ more) in Hmet. congruence.
Qed.

Lemma findings_more target_courses user_background completed more :
  (length (gaps (collect_findings target_courses user_background
                   (completed ++ more)%list))
   ≤ length (gaps (collect_findings target_courses user_background
                     completed)))%nat.
Proof.
  rewrite !collect_findings_gaps.
  induction target_courses as [|c cs IH]; [done|].
  rewrite !fmap_cons. cbn [mjoin list_join]. rewrite !length_app.
  apply Nat.add_le_mono; [apply course_gaps_more | exact IH].
Qed.

(** X15: completing more courses never adds a finding: with a longer
    list of completed courses the report has at most as many findings,
    stays Low if it was Low, and is High only if it was High before. *)
Theorem more_completed_courses_never_worse
    db db' target_courses user_background
    (completed more : list string) report report' :
  perform_skill_gap_analysis db target_courses user_background
    (Some completed) = Ok report →
  perform_skill_gap_analysis db' target_courses user_background
    (Some (completed ++ more)%list) = Ok report' →
  (length (prerequisite_issues report')
   ≤ length (prerequisite_issues report))%nat ∧
  (gap_severity report = "Low" → gap_severity report' = "Low") ∧
  (gap_severity report' = "High" → gap_severity report = "High").
Proof.
  intros (Hsev & _ & Hissues)%report_fields
         (Hsev' & _ & Hissues')%report_fields.
  simpl in *.
  pose proof (findings_more target_courses (default "" user_background)
                completed more) as Hle.
  pose proof (collect_findings_paired target_courses
                (default "" user_background) completed) as Hp.
  pose proof (collect_findings_paired target_courses
                (default "" user_background) (completed ++ more)%list) as Hp'.
  unfold paired in Hp, Hp'.
  rewrite Hsev, Hsev', Hissues, Hissues', <- Hp, <- Hp'.
  destruct (severity_of_count_cases
              (length (gaps (collect_findings target_courses
                               (default "" user_background) completed))))
    as (Hlow & _ & Hhigh).
  destruct (severity_of_count_cases
              (length (gaps (collect_findings target_courses
                               (default "" user_background)
                               (completed ++ more)%list))))
    as (Hlow' & _ & Hhigh').
  rewrite Hlow, Hlow', Hhigh, Hhigh'. lia.
Qed.

Lemma more_completed_courses_never_worse_witness :
  ∃ report report',
    perform_skill_gap_analysis Inputs.no_match_catalog
      Inputs.calculus_courses None (Some []) = Ok report ∧
    perform_skill_gap_analysis Inputs.no_match_catalog
      Inputs.calculus_courses None (Some ([] ++ ["Calculus I"])%list)
    = Ok report' ∧
    (length (prerequisite_issues report')
     ≤ length (prerequisite_issues report))%nat.
Proof.
  do 2 eexists.
  split; [vm_compute; reflexivity|].
  split; [vm_compute; reflexivity|].
  eapply (more_completed_courses_never_worse Inputs.no_match_catalog
            Inputs.no_match_catalog Inputs.calculus_courses None [] ["Calculus I"]);
    vm_compute; reflexivity.
Defined.

End GapAnalyzerMore.

(** ** Vector retriever: order, size and origin of the results *)

Module RetrieverMore.
Import CourseSearchResult Retriever Provenance.
Import ResultFacts SortFacts RetrieverSpec.

Local Open Scope Q_scope.

Lemma slice_to_take {A} (n : Z) (l : list A) :
  ∃ m, slice_to n l = take m l.
Proof. unfold slice_to. destruct (n <? 0)%Z; eauto. Qed.

(** The results of a normal end of the guarded block. *)
Lemma search_body_Ok w query_text limit results :
  search_body w query_text limit = Ok results →
  ∃ query_embedding rows similarities,
    course_catalog w = Ok rows ∧
    collect_similarities w query_embedding (embedded rows)
    = Ok similarities ∧
    results = rank limit similarities.
Proof.
  unfold search_body.
  intros (q & _ & H)%bind_Ok_inv.
  apply bind_Ok_inv in H as (_ & _ & H).
  apply bind_Ok_inv in H as (_ & _ & H).
  apply bind_Ok_inv in H as (_ & _ & H).
  apply bind_Ok_inv in H as (_ & _ & H).
  apply bind_Ok_inv in H as (rows & Hrows & H).
  apply bind_Ok_inv in H as (similarities & Hsims & H).
  apply bind_Ok_inv in H as (_ & _ & [= <-]).
  by exists q, rows, similarities.
Qed.

(** What a normal return of [search_courses_by_vector] is. *)
Lemma search_Ok w query_text limit results :
  search_courses_by_vector w query_text limit = Ok results →
  results = [sample_result query_text] ∨
  search_body w query_text (default 3%Z limit) = Ok results.
Proof.
  unfold search_courses_by_vector.
  intros ([] & _ & H)%bind_Ok_inv.
  destruct (search_body w query_text _) as [rs|e].
  - injection H as ->. by right.
  - destruct (is_auth_error e); [done|]. injection H as <-. by left.
Qed.

(** X17: a search with a limit of 1 or more returns at most that many
    results. *)
Theorem search_results_within_limit w query_text (limit : Z) results :
  (1 ≤ limit)%Z →
  search_courses_by_vector w query_text (Some limit) = Ok results →
  (length results ≤ Z.to_nat limit)%nat.
Proof.
  intros Hlimit [->|Hbody]%search_Ok.
  - simpl. lia.
  - apply search_body_length in Hbody; [done|]. simpl. lia.
Qed.

Lemma search_results_within_limit_witness :
  ∃ results,
    search_courses_by_vector Inputs.healthy "python" (Some 2%Z)
    = Ok results ∧
    (length results ≤ 2)%nat.
Proof.
  eexists. split; [vm_compute; reflexivity|].
  apply (search_results_within_limit Inputs.healthy "python" 2);
    [lia | vm_compute; reflexivity].
Defined.

Lemma collect_similarities_from_rows w reference rows similarities :
  collect_similarities w reference rows = Ok similarities →
  Forall (λ item, from_row rows (item_course_id item) (item_title item))
         similarities.
Proof.
  revert similarities.
  induction rows as [|row rows IH]; intros similarities;
    cbn [collect_similarities].
  - intros [= <-]. constructor.
  - assert (Hweaken : ∀ items,
              Forall (λ item, from_row rows (item_course_id item)
                                       (item_title item)) items →
              Forall (λ item, from_row (row :: rows) (item_course_id item)
                                       (item_title item)) items).
    { intros items Hitems. eapply Forall_impl; [exact Hitems|].
      intros item (r & blob & Hr & ?). exists r, blob.
      split; [by right|done]. }
    destruct (row_content_embedding row) as [blob|] eqn:Hblob; simpl;
      [destruct (truthy_str blob) eqn:Htruthy|]; [|by eauto..].
    intros (item & Hitem & H)%bind_Ok_inv.
    apply bind_Ok_inv in H as (items & Hitems & [= <-]).
    constructor; [|by eauto].
    unfold similarity_item in Hitem.
    apply bind_Ok_inv in Hitem as (? & _ & Hitem).
    apply bind_Ok_inv in Hitem as (? & _ & Hitem).
    apply bind_Ok_inv in Hitem as (? & _ & Hitem).
    apply bind_Ok_inv in Hitem as (? & _ & Hitem).
    apply bind_Ok_inv in Hitem as (? & _ & [= <-]).
    exists row, blob. simpl. split_and!; [by left|done..|].
    by intros ->.
Qed.

Lemma rank_from_rows limit rows similarities :
  Forall (λ item, from_row rows (item_course_id item) (item_title item))
         similarities →
  Forall (λ r, from_row rows (course_id r) (title r))
         (rank limit similarities).
Proof.
  intros Hsims. unfold rank. rewrite Forall_fmap.
  destruct (slice_to_take limit
              (sort_key_reverse item_similarity_score similarities))
    as [m ->].
  apply Forall_take. unfold sort_key_reverse.
  by rewrite sort_by_Permutation.
Qed.

Lemma from_row_subseteq rows rows' id title :
  rows ⊆ rows' → from_row rows id title → from_row rows' id title.
Proof.
  intros Hsub (row & blob & Hrow & ?). exists row, blob.
  split; [by apply Hsub|done].
Qed.

(** X18: a search returns either its one sample result or courses of the
    catalog: each result has the id and the title of a stored row whose
    embedding is present and not empty. *)
Theorem search_results_from_catalog w query_text limit results :
  search_courses_by_vector w query_text limit = Ok results →
  results = [sample_result query_text] ∨
  ∃ rows, course_catalog w = Ok rows ∧
          Forall (λ r, from_row rows (course_id r) (title r)) results.
Proof.
  intros [->|Hbody]%search_Ok; [by left|]. right.
  apply search_body_Ok in Hbody as (q & rows & sims & Hrows & Hsims & ->).
  exists rows. split; [done|].
  apply collect_similarities_from_rows, (rank_from_rows (default 3%Z limit))
    in Hsims.
  eapply Forall_impl; [exact Hsims|].
  intros r. apply from_row_subseteq. unfold embedded.
  intros row. rewrite list_elem_of_filter. tauto.
Qed.

Lemma search_results_from_catalog_witness :
  ∃ results,
    search_courses_by_vector Inputs.healthy "python" (Some 1%Z)
    = Ok results ∧
    (results = [sample_result "python"] ∨
     ∃ rows, course_catalog Inputs.healthy = Ok rows ∧
             Forall (λ r, from_row rows (course_id r) (title r)) results).
Proof.
  eexists. split; [vm_compute; reflexivity|].
  eapply (search_results_from_catalog Inputs.healthy "python" (Some 1%Z)).
  vm_compute. reflexivity.
Defined.

(** *** Similar courses *)

Lemma similar_samples_length course_id limit :
  (0 ≤ limit)%Z →
  (length (similar_samples course_id limit) ≤ Z.to_nat limit)%nat.
Proof.
  intros Hlimit. unfold similar_samples.
  rewrite length_fmap, length_seqZ. lia.
Qed.

(** What a normal return of [get_similar_courses] is. *)
Lemma get_similar_Ok w course_id limit results :
  get_similar_courses w course_id limit = Ok results →
  results = similar_samples course_id (default 5%Z limit) ∨
  ∃ reference rows similarities,
    course_catalog w = Ok rows ∧
    collect_similarities w reference
      (filter (λ row, row_course_id row ≠ course_id) (embedded rows))
    = Ok similarities ∧
    results = rank (default 5%Z limit) similarities.
Proof.
  unfold get_similar_courses. cbv zeta.
  intros ([] & _ & H)%bind_Ok_inv.
  apply bind_Ok_inv in H as (rows0 & _ & H).
  destruct (head _) as [blob|].
  - apply bind_Ok_inv in H as (reference & _ & H).
    apply bind_Ok_inv in H as (rows & Hrows & H).
    destruct (similar_body _ _ _ _) as [rs|e] eqn:Hbody.
    + injection H as ->. right. unfold similar_body in Hbody.
      apply bind_Ok_inv in Hbody as (sims & Hsims & Hbody).
      apply bind_Ok_inv in Hbody as (_ & _ & [= <-]).
      by exists reference, rows, sims.
    + injection H as <-. by left.
  - apply bind_Ok_inv in H as (_ & _ & H). done.
Qed.

(** X19: what [get_similar_courses] returns is, for a limit of 0 or
    more, within the limit; unless it is the sample list, it consists of
    stored courses other than the seed course. *)
Theorem similar_courses_results w seed_id limit results :
  get_similar_courses w seed_id limit = Ok results →
  ((0 ≤ default 5 limit)%Z →
   (length results ≤ Z.to_nat (default 5%Z limit))%nat) ∧
  (results = similar_samples seed_id (default 5%Z limit) ∨
   ∃ rows, course_catalog w = Ok rows ∧
           Forall (λ r, course_id r ≠ seed_id ∧
                        from_row rows (course_id r) (title r)) results).
Proof.
  intros [->|(reference & rows & sims & Hrows & Hsims & ->)]%get_similar_Ok.
  - split; [apply similar_samples_length | by left].
  - split; [by apply rank_length_le|].
    right. exists rows. split; [done|].
    apply collect_similarities_from_rows,
      (rank_from_rows (default 5%Z limit)) in Hsims.
    eapply Forall_impl; [exact Hsims|].
    intros r (row & blob & Hrow & Hid & Htitle & Hblob).
    apply list_elem_of_filter in Hrow as [Hne Hrow].
    apply list_elem_of_filter in Hrow as [_ Hrow].
    split; [congruence|]. by exists row, blob.
Qed.

Lemma similar_courses_results_witness :
  ∃ results,
    get_similar_courses Inputs.healthy "a" (Some 2%Z) = Ok results ∧
    (length results ≤ 2)%nat ∧
    Forall (λ r, course_id r ≠ "a") results.
Proof.
  destruct (get_similar_courses _ _ _) as [results|e] eqn:Hrun;
    [|vm_compute in Hrun; discriminate Hrun].
  exists results. split; [done|].
  destruct (similar_courses_results _ _ _ _ Hrun) as (Hlen & Hfrom).
  split; [apply Hlen; simpl; lia|].
  destruct Hfrom as [->|(rows & _ & Hfrom)].
  - vm_compute in Hrun. discriminate Hrun.
  - eapply Forall_impl; [exact Hfrom|]. by intros r [Hne _].
Defined.



(** X28: the limit is not checked: a search with a limit of 0 returns no
    course at all, the empty list, or the sample result when it
    degrades. *)
Theorem search_with_limit_zero w query_text results :
  search_courses_by_vector w query_text (Some 0%Z) = Ok results →
  results = [] ∨ results = [sample_result query_text].
Proof.
  intros [->|Hbody]%search_Ok; [by right|]. left.
  apply search_body_length in Hbody; [|done].
  by apply length_zero_iff_nil, Nat.le_0_r.
Qed.

Lemma search_with_limit_zero_witness :
  search_courses_by_vector Inputs.healthy "python" (Some 0%Z) = Ok [].
Proof.
  destruct (search_with_limit_zero Inputs.healthy "python" [])
    as [_|H]; [vm_compute; reflexivity | reflexivity | discriminate H].
Defined.

End RetrieverMore.

(** ** Course analytics: counts, top tags and duration statistics *)

Module AnalyticsSpec.
Import CourseAnalytics Analytics SortFacts.

(** *** The counting loop *)

Lemma count_into_cons_eq k n d :
  count_into ((k, n) :: d) k = (k, S n) :: d.
Proof. cbn [count_into]. by rewrite bool_decide_eq_true_2. Qed.

Lemma count_into_cons_ne k' k n d :
  k' ≠ k → count_into ((k', n) :: d) k = (k', n) :: count_into d k.
Proof. intros. cbn [count_into]. by rewrite bool_decide_eq_false_2. Qed.

Lemma sum_list_cons n l : sum_list (n :: l) = (n + sum_list l)%nat.
Proof. done. Qed.

Lemma count_into_sum d k :
  sum_list (count_into d k).*2 = S (sum_list d.*2).
Proof.
  induction d as [|[k' n] d IH]; [done|].
  destruct (decide (k' = k)) as [->|Hne].
  - by rewrite count_into_cons_eq.
  - rewrite count_into_cons_ne by done.
    rewrite !fmap_cons, !sum_list_cons, IH. cbn [snd]. lia.
Qed.

Lemma count_into_keys d k k0 :
  k0 ∈ (count_into d k).*1 ↔ k0 = k ∨ k0 ∈ d.*1.
Proof.
  induction d as [|[k' n] d IH].
  - simpl. rewrite list_elem_of_singleton, elem_of_nil. tauto.
  - destruct (decide (k' = k)) as [->|Hne].
    + rewrite count_into_cons_eq, !fmap_cons, !elem_of_cons. cbn [fst].
      tauto.
    + rewrite count_into_cons_ne by done.
      rewrite !fmap_cons, !elem_of_cons, IH. cbn [fst]. tauto.
Qed.

Lemma count_into_NoDup d k : NoDup d.*1 → NoDup (count_into d k).*1.
Proof.
  induction d as [|[k' n] d IH]; intros Hd.
  - apply NoDup_singleton.
  - destruct (decide (k' = k)) as [->|Hne].
    + by rewrite count_into_cons_eq.
    + rewrite count_into_cons_ne by done.
      rewrite fmap_cons in *. cbn [fst] in *.
      apply NoDup_cons in Hd as [Hk' Hd]. apply NoDup_cons.
      split; [|by apply IH].
      rewrite count_into_keys. intros [?|?]; congruence.
Qed.

Lemma count_into_positive d k :
  Forall (λ item, (1 ≤ item.2)%nat) d →
  Forall (λ item, (1 ≤ item.2)%nat) (count_into d k).
Proof.
  induction 1 as [|[k' n] d Hn Hd IH].
  - by repeat constructor.
  - destruct (decide (k' = k)) as [->|Hne].
    + rewrite count_into_cons_eq. constructor; [simpl; lia | done].
    + rewrite count_into_cons_ne by done. by constructor.
Qed.

Lemma held_cons k k' n d :
  held k ((k', n) :: d)
  = ((if decide (k' = k) then n else 0) + held k d)%nat.
Proof.
  unfold held. rewrite filter_cons. cbn [fst].
  by destruct (decide (k' = k)).
Qed.

Lemma held_count_into k0 d k :
  held k0 (count_into d k)
  = (held k0 d + if decide (k = k0) then 1 else 0)%nat.
Proof.
  induction d as [|[k' n] d IH].
  - simpl. rewrite held_cons. unfold held. simpl. lia.
  - destruct (decide (k' = k)) as [->|Hne].
    + rewrite count_into_cons_eq, !held_cons.
      destruct (decide (k = k0)); lia.
    + rewrite count_into_cons_ne, !held_cons, IH by done. lia.
Qed.

Lemma held_absent d k : k ∉ d.*1 → held k d = 0%nat.
Proof.
  induction d as [|[k' n] d IH]; [done|].
  rewrite fmap_cons, not_elem_of_cons, held_cons. cbn [fst].
  intros [Hne Hk]. rewrite decide_False by congruence. by rewrite IH.
Qed.

Lemma held_elem d k n : NoDup d.*1 → (k, n) ∈ d → held k d = n.
Proof.
  induction d as [|[k' n'] d IH]; intros Hd Hin.
  - by apply elem_of_nil in Hin.
  - rewrite fmap_cons in Hd. cbn [fst] in Hd.
    apply NoDup_cons in Hd as [Hk' Hd]. rewrite held_cons.
    apply elem_of_cons in Hin as [[= -> ->]|Hin].
    + rewrite decide_True, held_absent by done. lia.
    + assert (k' ≠ k) as Hne.
      { intros ->. apply Hk', list_elem_of_fmap. by exists (k, n). }
      by rewrite decide_False, IH.
Qed.

(** What the counting loop leaves: each key of the list once, holding
    the number of its occurrences. *)
Lemma tally_spec keys :
  NoDup (tally keys).*1 ∧
  (∀ k, k ∈ (tally keys).*1 ↔ k ∈ keys) ∧
  (∀ k n, (k, n) ∈ tally keys → n = count k keys ∧ (1 ≤ n)%nat) ∧
  sum_list (tally keys).*2 = length keys.
Proof.
  unfold tally.
  assert (∀ d,
    NoDup d.*1 → Forall (λ item, (1 ≤ item.2)%nat) d →
    NoDup (foldl count_into d keys).*1 ∧
    (∀ k, k ∈ (foldl count_into d keys).*1 ↔ k ∈ d.*1 ∨ k ∈ keys) ∧
    Forall (λ item, (1 ≤ item.2)%nat) (foldl count_into d keys) ∧
    (∀ k, held k (foldl count_into d keys)
          = (held k d + count k keys)%nat) ∧
    sum_list (foldl count_into d keys).*2
    = (sum_list d.*2 + length keys)%nat) as H.
  { induction keys as [|k ks IH]; intros d Hd Hpos.
    - simpl. split_and!; [done| |done| |lia].
      + intros k. rewrite elem_of_nil. tauto.
      + intros k. unfold count. simpl. lia.
    - simpl.
      destruct (IH (count_into d k)) as (Hn & Hk & Hp & Hh & Hs);
        [by apply count_into_NoDup | by apply count_into_positive|].
      split_and!; [done| |done| |].
      + intros k0. rewrite Hk, count_into_keys, elem_of_cons. tauto.
      + intros k0. rewrite Hh, held_count_into. unfold count.
        rewrite filter_cons.
        destruct (decide (k = k0)) as [->|?].
        * rewrite decide_True by done. simpl. lia.
        * rewrite decide_False by congruence. lia.
      + rewrite Hs, count_into_sum. lia. }
  destruct (H []) as (Hn & Hk & Hp & Hh & Hs); [constructor..|].
  split_and!; [done| |  |done].
  - intros k. rewrite Hk, elem_of_nil. tauto.
  - intros k n Hin. split.
    + rewrite <- (held_elem _ _ _ Hn Hin), Hh. unfold held. simpl. lia.
    + by apply (proj1 (Forall_forall _ _) Hp (k, n)).
Qed.

(** *** The analytics of a candidate list *)

Lemma analytics_of_nonempty courses :
  courses ≠ [] →
  let a := generate_course_analytics courses in
  total_courses_analyzed a = length courses ∧
  skill_level_distribution a
  = tally ((λ course, lower (default "unknown" (Course.level course)))
             <$> courses) ∧
  modality_distribution a
  = tally ((λ course, lower (default "unknown" (Course.modality course)))
             <$> courses) ∧
  top_tags a = take 10 (sorted_count_reverse (tally (all_tags courses))).
Proof.
  intros Hne. destruct courses as [|c cs]; [done|].
  cbv zeta. unfold generate_course_analytics. cbv zeta.
  cbn [total_courses_analyzed skill_level_distribution
         modality_distribution top_tags].
  change 10%Z with (Z.of_nat 10).
  by rewrite PathBuilderSpec.slice_to_nonneg.
Qed.

(** X21: the analytics count every candidate once: the total is the
    number of candidates, and the counts of the skill-level distribution
    and of the modality distribution each add up to it; a level or
    modality is a key of its distribution exactly when it is, in lower
    case and with "unknown" for a missing one, that of some candidate. *)
Theorem distributions_cover_candidates courses :
  let a := generate_course_analytics courses in
  total_courses_analyzed a = length courses ∧
  sum_list (skill_level_distribution a).*2 = length courses ∧
  sum_list (modality_distribution a).*2 = length courses ∧
  NoDup (skill_level_distribution a).*1 ∧
  ∀ lvl, lvl ∈ (skill_level_distribution a).*1 ↔
         ∃ course, course ∈ courses ∧
                   lower (default "unknown" (Course.level course)) = lvl.
Proof.
  destruct (decide (courses = [])) as [->|Hne].
  { simpl. split_and!; [done..|constructor|].
    intros lvl. rewrite elem_of_nil. split; [done|].
    by intros (c & ?%elem_of_nil & _). }
  destruct (analytics_of_nonempty courses Hne) as (Htotal & Hskill & Hmod & _).
  intros a. fold a in Htotal, Hskill, Hmod. rewrite Htotal, Hskill, Hmod.
  destruct (tally_spec ((λ course,
              lower (default "unknown" (Course.level course))) <$> courses))
    as (Hnodup & Hkeys & _ & Hsum).
  destruct (tally_spec ((λ course,
              lower (default "unknown" (Course.modality course))) <$> courses))
    as (_ & _ & _ & Hsum').
  rewrite Hsum, Hsum', !length_fmap. split_and!; [done..|].
  intros lvl. rewrite Hkeys, list_elem_of_fmap.
  split; intros (c & ? & ?); exists c; by split.
Qed.

(** X22: [top_tags] lists at most 10 tags, each once and in lower case
    with the number of its occurrences over all candidates, in
    non-increasing order of that number. *)
Theorem top_tags_counts courses :
  let a := generate_course_analytics courses in
  (length (top_tags a) ≤ 10)%nat ∧
  NoDup (top_tags a).*1 ∧
  StronglySorted (λ x y, (y.2 ≤ x.2)%nat) (top_tags a) ∧
  ∀ tag n, (tag, n) ∈ top_tags a →
           n = count tag (all_tags courses) ∧ (1 ≤ n)%nat ∧
           ∃ course t, course ∈ courses ∧
                       t ∈ default [] (Course.tags course) ∧ tag = lower t.
Proof.
  destruct (decide (courses = [])) as [->|Hne].
  { simpl. split_and!; [lia | constructor | constructor |].
    by intros tag n ?%elem_of_nil. }
  destruct (analytics_of_nonempty courses Hne) as (_ & _ & _ & Htop).
  intros a. fold a in Htop. rewrite Htop. clear Htop.
  set (sorted := sorted_count_reverse (tally (all_tags courses))).
  assert (Hperm : sorted ≡ₚ tally (all_tags courses))
    by apply sort_by_Permutation.
  destruct (tally_spec (all_tags courses)) as (Hnodup & Hkeys & Hcount & _).
  assert (Hsub : ∀ x, x ∈ take 10 sorted → x ∈ tally (all_tags courses)).
  { intros x Hx. rewrite <- Hperm. revert Hx. apply subseteq_take. }
  split_and!.
  - rewrite length_take. lia.
  - rewrite <- Hperm in Hnodup.
    rewrite <- (take_drop 10 sorted), fmap_app in Hnodup.
    by apply NoDup_app in Hnodup as (? & _).
  - apply StronglySorted_app_1_l with (l2 := drop 10 sorted).
    rewrite take_drop.
    eapply StronglySorted_mono;
      [|apply (sort_by_sorted (λ y x : string * nat, (x.2 <? y.2)%nat))].
    + unfold may_precede. intros x y. simpl. rewrite Nat.ltb_ge. lia.
    + intros x y. simpl. rewrite Nat.ltb_lt, Nat.ltb_ge. lia.
    + intros x y z. simpl. rewrite !Nat.ltb_ge. lia.
  - intros tag n Hin%Hsub.
    destruct (Hcount tag n Hin) as [Hn Hpos]. split_and!; [done..|].
    assert (tag ∈ all_tags courses) as Htag.
    { apply Hkeys, list_elem_of_fmap. by exists (tag, n). }
    unfold all_tags in Htag. apply list_elem_of_join in Htag as (l & Htag & Hl).
    apply list_elem_of_fmap in Hl as (course & -> & Hcourse).
    apply list_elem_of_fmap in Htag as (t & -> & Ht).
    by exists course, t.
Qed.

(** *** Duration statistics *)

Lemma min_Z_spec x l :
  min_Z x l ∈ x :: l ∧ Forall (λ y, (min_Z x l ≤ y)%Z) (x :: l).
Proof.
  unfold min_Z. revert x. induction l as [|y l IH]; intros x; simpl.
  - split; [by left | by repeat constructor].
  - destruct (IH (x `min` y)%Z) as [Hin Hall].
    apply Forall_cons in Hall as [Hhead Hall]. split.
    + apply elem_of_cons in Hin as [Hin|Hin]; [|by do 2 right].
      rewrite Hin. destruct (Z.min_spec x y) as [[_ ->]|[_ ->]];
        [by left | right; by left].
    + repeat constructor; [lia | lia | done].
Qed.

Lemma max_Z_spec x l :
  max_Z x l ∈ x :: l ∧ Forall (λ y, (y ≤ max_Z x l)%Z) (x :: l).
Proof.
  unfold max_Z. revert x. induction l as [|y l IH]; intros x; simpl.
  - split; [by left | by repeat constructor].
  - destruct (IH (x `max` y)%Z) as [Hin Hall].
    apply Forall_cons in Hall as [Hhead Hall]. split.
    + apply elem_of_cons in Hin as [Hin|Hin]; [|by do 2 right].
      rewrite Hin. destruct (Z.max_spec x y) as [[_ ->]|[_ ->]];
        [right; by left | by left].
    + repeat constructor; [lia | lia | done].
Qed.

Lemma sum_Z_from a l : foldl Z.add a l = (a + sum_Z l)%Z.
Proof.
  unfold sum_Z. revert a. induction l as [|x l IH]; intros a; simpl; [lia|].
  rewrite (IH (a + x)%Z), (IH (0 + x)%Z). lia.
Qed.

Lemma sum_Z_cons x l : sum_Z (x :: l) = (x + sum_Z l)%Z.
Proof. unfold sum_Z at 1. simpl. by rewrite sum_Z_from. Qed.

Lemma sum_Z_bounds lo hi l :
  Forall (λ y, (lo ≤ y ≤ hi)%Z) l →
  (lo * Z.of_nat (length l) ≤ sum_Z l ≤ hi * Z.of_nat (length l))%Z.
Proof.
  induction 1 as [|x l Hx Hl IH]; [unfold sum_Z; simpl; lia|].
  rewrite sum_Z_cons. cbn [length]. lia.
Qed.

Lemma mean_bounds lo hi (s n : Z) :
  (0 < n)%Z → (lo * n ≤ s ≤ hi * n)%Z →
  (inject_Z lo <= inject_Z s / inject_Z n <= inject_Z hi)%Q.
Proof.
  intros Hn [Hlo Hhi].
  assert (0 < inject_Z n)%Q as Hn' by (by rewrite (Zlt_Qlt 0 n) in Hn).
  split.
  - apply Qle_shift_div_l; [done|].
    rewrite <- inject_Z_mult. by rewrite <- Zle_Qle.
  - apply Qle_shift_div_r; [done|].
    rewrite <- inject_Z_mult. by rewrite <- Zle_Qle.
Qed.

Lemma float_of_int_exact n :
  (Z.abs n ≤ 2 ^ 53)%Z → float_of_int n = inject_Z n.
Proof.
  intros Hn. unfold float_of_int. cbv zeta.
  by rewrite (proj2 (Z.leb_le _ _) Hn).
Qed.

(** X23: the analytics have duration statistics exactly when some
    candidate has a positive duration.  They are taken over the positive
    durations only: when no duration exceeds 2^53, the minimum and the
    maximum are positive durations of candidates, and the mean lies
    between them. *)
Theorem duration_statistics_range courses :
  let a := generate_course_analytics courses in
  (duration_statistics a = None ↔
   ∀ course, course ∈ courses →
             (default 0 (Course.duration_hours course) ≤ 0)%Z) ∧
  ((∀ course, course ∈ courses →
              (default 0 (Course.duration_hours course) ≤ 2 ^ 53)%Z) →
   ∀ st, duration_statistics a = Some st →
     (0 < stats_min st)%Q ∧
     (stats_min st <= stats_mean st)%Q ∧
     (stats_mean st <= stats_max st)%Q ∧
     (∃ course d, course ∈ courses ∧
                  Course.duration_hours course = Some d ∧
                  stats_min st = inject_Z d) ∧
     (∃ course d, course ∈ courses ∧
                  Course.duration_hours course = Some d ∧
                  stats_max st = inject_Z d)).
Proof.
  assert (Hpos : ∀ d, d ∈ positive_durations courses ↔
            (0 < d)%Z ∧ ∃ course, course ∈ courses ∧
                                  Course.duration_hours course = Some d).
  { intros d. unfold positive_durations.
    rewrite list_elem_of_filter, list_elem_of_fmap. split.
    - intros (Hd & c & -> & Hc). split; [done|]. exists c. split; [done|].
      destruct (Course.duration_hours c); [done|]. simpl in Hd. lia.
    - intros (Hd & c & Hc & Hdur). split; [done|].
      exists c. by rewrite Hdur. }
  assert (Hnone : positive_durations courses = [] ↔
            ∀ course, course ∈ courses →
                      (default 0 (Course.duration_hours course) ≤ 0)%Z).
  { split.
    - intros Hnil c Hc.
      destruct (Z.le_gt_cases (default 0%Z (Course.duration_hours c)) 0)
        as [|Hgt]; [done|].
      assert (default 0%Z (Course.duration_hours c)
                ∈ positive_durations courses) as Hin.
      { unfold positive_durations.
        apply list_elem_of_filter. split; [lia|].
        apply list_elem_of_fmap. by exists c. }
      rewrite Hnil in Hin. by apply elem_of_nil in Hin.
    - intros Hall. apply elem_of_nil_inv. intros d (Hd & c & Hc & Hdur)%Hpos.
      specialize (Hall c Hc). rewrite Hdur in Hall. simpl in Hall. lia. }
  destruct courses as [|c cs].
  { simpl. split; [|done]. split; [|done]. by intros _ c ?%elem_of_nil. }
  cbv zeta. unfold generate_course_analytics. cbv zeta.
  cbn [duration_statistics].
  destruct (positive_durations (c :: cs)) as [|d ds] eqn:Hdur.
  { split; [|done]. split; [intros _; by apply Hnone | done]. }
  split.
  { split; [done|]. intros Hall%Hnone. done. }
  intros Hsmall st [= <-]. cbn [stats_min stats_max stats_mean].
  destruct (min_Z_spec d ds) as [Hmin_in Hmin].
  destruct (max_Z_spec d ds) as [Hmax_in Hmax].
  apply Hpos in Hmin_in as (Hmin_pos & cmin & Hcmin & Hdmin).
  apply Hpos in Hmax_in as (Hmax_pos & cmax & Hcmax & Hdmax).
  pose proof (Hsmall cmin Hcmin) as Hmin_small.
  pose proof (Hsmall cmax Hcmax) as Hmax_small.
  rewrite Hdmin in Hmin_small. rewrite Hdmax in Hmax_small.
  simpl in Hmin_small, Hmax_small.
  rewrite !float_of_int_exact by lia.
  split_and!.
  - by rewrite <- (Zlt_Qlt 0).
  - apply (mean_bounds (min_Z d ds) (max_Z d ds)); [simpl; lia|].
    apply (sum_Z_bounds _ _ (d :: ds)), Forall_forall. intros y Hy.
    split; [by apply (proj1 (Forall_forall _ _) Hmin)
           |by apply (proj1 (Forall_forall _ _) Hmax)].
  - apply (mean_bounds (min_Z d ds) (max_Z d ds)); [simpl; lia|].
    apply (sum_Z_bounds _ _ (d :: ds)), Forall_forall. intros y Hy.
    split; [by apply (proj1 (Forall_forall _ _) Hmin)
           |by apply (proj1 (Forall_forall _ _) Hmax)].
  - by exists cmin, (min_Z d ds).
  - by exists cmax, (max_Z d ds).
Qed.

Lemma duration_statistics_range_witness :
  ∃ st,
    duration_statistics
      (generate_course_analytics
         [Inputs.lasting 40; Inputs.lasting 0; Inputs.lasting 12])
    = Some st ∧
    (stats_min st == 12)%Q ∧ (stats_max st == 40)%Q ∧
    (stats_min st <= stats_mean st)%Q ∧ (stats_mean st <= stats_max st)%Q.
Proof.
  eexists. split; [reflexivity|].
  split; [reflexivity|]. split; [reflexivity|].
  destruct (duration_statistics_range
              [Inputs.lasting 40; Inputs.lasting 0; Inputs.lasting 12])
    as [_ Hrange].
  destruct (Hrange ltac:(intros course Hin; apply list_elem_of_In in Hin;
                         simpl in Hin;
                         destruct Hin as [<-|[<-|[<-|[]]]]; simpl; lia)
              _ eq_refl)
    as (_ & Hlo & Hhi & _).
  by split.
Defined.

End AnalyticsSpec.

(** ** The pipeline *)

Module PipelineSpec.
Import CourseRecommendation Pipeline ResultFacts SortFacts.

Local Open Scope Q_scope.

(** What the retrieve node hands on: the dicts of at most ten search
    results. *)
Lemma retrieve_node_Ok w query courses :
  Retriever.retrieve_courses_node w query = Ok courses →
  ∃ results,
    Retriever.search_courses_by_vector w query (Some 10%Z) = Ok results ∧
    courses = Retriever.course_dict <$> results ∧
    (length courses ≤ 10)%nat.
Proof.
  unfold Retriever.retrieve_courses_node.
  intros (results & Hsearch & [= <-])%bind_Ok_inv.
  exists results. split_and!; [done..|].
  rewrite length_map.
  apply RetrieverMore.search_Ok in Hsearch as [->|Hbody]; [simpl; lia|].
  by apply RetrieverSpec.search_body_length in Hbody.
Qed.

(** The artifacts of a run that returned. *)
Lemma rag_Ok sv query user_preferences r :
  course_recommendation_rag sv query user_preferences = Ok r →
  let prefs := default empty_preferences user_preferences in
  ∃ courses gaps,
    Retriever.retrieve_courses_node (world sv) query = Ok courses ∧
    GapAnalyzer.perform_skill_gap_analysis (catalog sv) courses
      (Some (default "" (background prefs)))
      (Some (default [] (completed_courses prefs))) = Ok gaps ∧
    response_query r = query ∧
    response_recommendations r
    = Scorer.analyze_course_recommendations courses (Some (scoring prefs)) ∧
    response_analytics r
    = Some (Analytics.generate_course_analytics courses) ∧
    response_learning_path r
    = Some (PathBuilder.generate_learning_path courses None) ∧
    response_skill_gaps r = Some gaps.
Proof.
  unfold course_recommendation_rag. cbv zeta.
  intros (state & Hflow & [= <-])%bind_Ok_inv.
  unfold workflow in Hflow. cbv zeta in Hflow.
  apply bind_Ok_inv in Hflow as (s1 & Hretrieve & Hflow).
  apply bind_Ok_inv in Hflow as (s2 & Hgaps & Hresponse).
  unfold retrieve_courses_node in Hretrieve.
  apply bind_Ok_inv in Hretrieve as (courses & Hcourses & [= <-]).
  unfold skill_gap_analysis_node in Hgaps. cbv zeta in Hgaps.
  apply bind_Ok_inv in Hgaps as (gaps & Hgaps & [= <-]).
  unfold generate_response_node in Hresponse. cbv zeta in Hresponse.
  apply bind_Ok_inv in Hresponse as ([] & _ & Hresponse).
  apply bind_Ok_inv in Hresponse as (text & _ & [= <-]).
  by exists courses, gaps.
Qed.

(** X24: the artifacts of a run of the pipeline describe one set of at
    most ten retrieved courses: that many recommendations, in
    non-increasing order of score, as many courses analyzed, and a
    learning path of the first six at most. *)
Theorem pipeline_artifacts_agree sv query user_preferences r :
  course_recommendation_rag sv query user_preferences = Ok r →
  (length (response_recommendations r) ≤ 10)%nat ∧
  StronglySorted (λ a b, recommendation_score b <= recommendation_score a)
                 (response_recommendations r) ∧
  ∃ analytics path gaps,
    response_analytics r = Some analytics ∧
    response_learning_path r = Some path ∧
    response_skill_gaps r = Some gaps ∧
    CourseAnalytics.total_courses_analyzed analytics
    = length (response_recommendations r) ∧
    length (LearningPath.courses path)
    = (length (response_recommendations r) `min` 6)%nat.
Proof.
  intros (courses & gaps & Hretrieve & _ & _ & -> & -> & -> & ->)%rag_Ok.
  apply retrieve_node_Ok in Hretrieve as (results & _ & _ & Hlen).
  assert (length (Scorer.analyze_course_recommendations courses
                    (Some (scoring (default empty_preferences
                                      user_preferences))))
          = length courses) as Hrecs
    by (by rewrite ScorerSpec.analyze_Permutation, length_fmap).
  rewrite Hrecs. split_and!; [done| |].
  - unfold Scorer.analyze_course_recommendations.
    destruct courses; [constructor | apply sort_key_reverse_sorted].
  - eexists _, _, _. split_and!; [done..| |].
    + by destruct courses.
    + rewrite PathBuilderSpec.path_courses, length_imap, length_take.
      unfold sorted_key. rewrite sort_by_length. lia.
Qed.

(** A retrieved course carries no rating, enrollment or certification
    key, so the scorer gives it no quality boost. *)
Lemma retrieved_course_unboosted prefs result :
  let rec := Scorer.recommend prefs (Retriever.course_dict result) in
  similarity_score rec = CourseSearchResult.similarity_score result ∧
  Scorer.quality_boost (Retriever.course_dict result) == 0 ∧
  contains "offers professional certification"
    (recommendation_reason rec) = false ∧
  contains "highly rated by students" (recommendation_reason rec) = false.
Proof.
  split_and!; [done | reflexivity | |].
  all: simpl; unfold Scorer.reason, Scorer.reasons; simpl.
  all: destruct (Qltb (8 # 10) _);
    destruct (Qltb (5 # 100) (Scorer.preference_boost _ _));
    vm_compute; reflexivity.
Qed.

(** X25: in the pipeline the quality boost is never applied, because
    the retrieve node hands on no rating, enrollment or certification
    key: the score of every recommendation of a run is
    [min(1, similarity + b)] for a preference boost [b] between 0 and
    0.25, and its reason names neither a certification nor a high
    rating. *)
Theorem pipeline_scores_without_quality sv query user_preferences r :
  course_recommendation_rag sv query user_preferences = Ok r →
  Forall (λ rec,
            (∃ b, 0 <= b ∧ b <= 25 # 100 ∧
                  recommendation_score rec
                  == Py.min 1 (similarity_score rec + b)) ∧
            contains "offers professional certification"
              (recommendation_reason rec) = false ∧
            contains "highly rated by students"
              (recommendation_reason rec) = false)
         (response_recommendations r).
Proof.
  intros (courses & gaps & Hretrieve & _ & _ & -> & _)%rag_Ok.
  apply retrieve_node_Ok in Hretrieve as (results & _ & -> & _).
  rewrite ScorerSpec.analyze_Permutation, !Forall_fmap.
  apply Forall_forall. intros result _.
  set (prefs := scoring (default empty_preferences user_preferences)).
  destruct (retrieved_course_unboosted prefs result)
    as (Hsim & Hquality & Hcert & Hrated).
  destruct (ScorerSpec.preference_boost_range prefs
              (Retriever.course_dict result)) as [Hp0 Hp1].
  simpl in *. split_and!; [|done..].
  exists (Scorer.preference_boost prefs (Retriever.course_dict result)).
  split_and!; [done..|].
  unfold Scorer.final_score, Scorer.base_score. simpl.
  apply Qle_antisym; apply ScorerMore.min_mono_r; rewrite Hquality; lra.
Qed.

Lemma pipeline_scores_without_quality_witness :
  ∃ r,
    course_recommendation_rag (Inputs.services Inputs.healthy) "python" None
    = Ok r ∧
    Forall (λ rec,
              contains "highly rated by students"
                (recommendation_reason rec) = false)
           (response_recommendations r).
Proof.
  eexists. split; [vm_compute; reflexivity|].
  eapply Forall_impl.
  - eapply (pipeline_scores_without_quality
              (Inputs.services Inputs.healthy) "python" None).
    vm_compute. reflexivity.
  - intros rec H. apply H.
Defined.

Lemma pipeline_artifacts_agree_witness :
  ∃ r,
    course_recommendation_rag (Inputs.services Inputs.healthy) "python" None
    = Ok r ∧
    (length (response_recommendations r) ≤ 10)%nat.
Proof.
  eexists. split; [vm_compute; reflexivity|].
  eapply (pipeline_artifacts_agree
            (Inputs.services Inputs.healthy) "python" None).
  vm_compute. reflexivity.
Defined.

(** X26: the pipeline rejects an empty query, and a run without an API
    key, with a [ValueError] before any service is called: whatever the
    services and the preferences are. *)
Theorem pipeline_rejects_bad_setup sv query user_preferences :
  query = "" ∨
  truthy_opt truthy_str (Retriever.getenv (world sv) "WATSONX_API_KEY")
  = false →
  course_recommendation_rag sv query user_preferences
  = Raise (Retriever.value_error
             (if truthy_str query
              then "WATSONX_API_KEY environment variable is required"
              else "query_text is required and must be a string")).
Proof.
  intros Hbad.
  unfold course_recommendation_rag, workflow, retrieve_courses_node,
    Retriever.retrieve_courses_node, Retriever.search_courses_by_vector,
    Retriever.search_setup.
  cbv zeta. cbn [Pipeline.query].
  destruct Hbad as [->|Hkey]; [done|].
  destruct (truthy_str query); [|done].
  by rewrite Hkey.
Qed.

Lemma pipeline_rejects_bad_setup_witness :
  course_recommendation_rag (Inputs.services Inputs.no_api_key) "python" None
  = Raise (Retriever.value_error
             "WATSONX_API_KEY environment variable is required").
Proof.
  apply (pipeline_rejects_bad_setup (Inputs.services Inputs.no_api_key)
           "python" None).
  right. reflexivity.
Defined.



End PipelineSpec.

(** ** Course details: generated modules and outcomes *)

Module CourseDetailsSpec.
Import CourseDetails.

Lemma num_modules_range duration : (2 ≤ num_modules duration ≤ 5)%nat.
Proof.
  unfold num_modules.
  destruct (duration <=? 8)%Z, (duration <=? 20)%Z, (duration <=? 40)%Z;
    lia.
Qed.

Lemma course_module_shape round1 module_duration tags n i :
  (i < n ≤ 5)%nat →
  let m := course_module round1 module_duration tags n i in
  module_number m = (Z.of_nat i + 1)%Z ∧
  ("Final Assessment" ∈ assessments m ↔ S i = n) ∧
  (1 ≤ length (topics m) ≤ 3)%nat.
Proof.
  intros Hi m.
  assert (Hfinal : "Final Assessment" ∈ assessments m ↔ S i = n).
  { unfold m, course_module. cbn [assessments].
    case_bool_decide as Hlast.
    - split; [lia|]. intros _. do 2 apply list_elem_of_further.
      apply list_elem_of_here.
    - split; [|lia].
      intros Hin. apply list_elem_of_In in Hin. simpl in Hin.
      destruct Hin as [?|[?|[]]]; discriminate. }
  assert (Htopics : (1 ≤ length (topics m) ≤ 3)%nat).
  { unfold m, course_module. cbn [topics].
    change 3%Z with (Z.of_nat 3). rewrite PathBuilderSpec.slice_to_nonneg.
    destruct (take 3 tags) as [|t ts] eqn:Htake.
    - rewrite fmap_nil.
      assert (i < 5)%nat as Hi5 by lia. clear Hfinal m Hi.
      do 5 (destruct i as [|i]; [simpl; lia|]). lia.
    - assert (length (t :: ts) = length (take 3 tags)) as Hlen
        by (by rewrite Htake).
      rewrite length_take in Hlen. cbn [length] in Hlen.
      rewrite fmap_cons. cbn beta iota. cbn [length].
      rewrite length_fmap. lia. }
  split_and!; [reflexivity | exact Hfinal | lia | lia].
Qed.

(** X29: a course of positive duration gets 2 to 5 generated modules,
    numbered 1, 2, ... in order; each has one to three topics, and the
    last one alone ends with a final assessment.  A course of duration 0
    or less gets none. *)
Theorem course_modules_shape round1 duration tags level :
  let modules := _generate_course_modules round1 duration tags level in
  ((duration ≤ 0)%Z → modules = []) ∧
  ((0 < duration)%Z → (2 ≤ length modules ≤ 5)%nat) ∧
  module_number <$> modules = seqZ 1 (Z.of_nat (length modules)) ∧
  ∀ i m, modules !! i = Some m →
         ("Final Assessment" ∈ assessments m ↔ S i = length modules) ∧
         (1 ≤ length (topics m) ≤ 3)%nat.
Proof.
  unfold _generate_course_modules. cbv zeta.
  destruct (Z.leb_spec duration 0) as [Hle|Hgt].
  { split_and!; [done | lia | done |]. by intros i m ?. }
  pose proof (num_modules_range duration) as Hn.
  set (n := num_modules duration) in *.
  set (f := course_module round1 _ tags n).
  rewrite length_fmap, length_seq. split_and!.
  - lia.
  - done.
  - unfold seqZ. rewrite Nat2Z.id, <- list_fmap_compose.
    apply list_fmap_ext. intros _ i _. simpl. lia.
  - intros i m Hm. rewrite list_lookup_fmap in Hm.
    destruct (seq 0 n !! i) as [j|] eqn:Hj; [|done].
    apply lookup_seq in Hj as [-> Hi]. injection Hm as <-.
    destruct (course_module_shape round1
                (inject_Z duration / inject_Z (Z.of_nat n)) tags n i)
      as (_ & Hfinal & Htopics); [lia|].
    by split.
Qed.

Lemma add_outcome_numbered description category level st :
  numbered st → numbered (add_outcome description category level st).
Proof.
  intros [Hids Hnext]. unfold numbered, add_outcome. simpl.
  rewrite length_app, fmap_app, Hids. simpl.
  rewrite Nat.add_1_r, seq_S, fmap_app. simpl.
  split; [by rewrite Hnext | lia].
Qed.

(** X30: the generated learning outcomes are never empty and are
    numbered LO1, LO2, ... in order; there are at most two more of them
    than tags. *)
Theorem learning_outcomes_numbered title description tags :
  let outs := _generate_learning_outcomes title description tags in
  outs ≠ [] ∧
  outcome_id <$> outs = (λ i, "LO" ++ pretty i) <$> seq 1 (length outs) ∧
  (length outs ≤ length tags + 2)%nat.
Proof.
  unfold _generate_learning_outcomes. cbv zeta.
  set (step := λ st tag, if existsb _ technical_skills then _ else st).
  assert (Htags : ∀ st,
            numbered st →
            numbered (foldl step st tags) ∧
            (length (outcomes (foldl step st tags))
             ≤ length (outcomes st) + length tags)%nat).
  { induction tags as [|tag tags IH]; intros st Hst; simpl; [split; [done|lia]|].
    destruct (IH (step st tag)) as [Hn Hl].
    - unfold step. destruct (existsb _ _); [|done].
      by apply add_outcome_numbered.
    - split; [done|]. etrans; [exact Hl|].
      unfold step. destruct (existsb _ _); simpl; [|lia].
      rewrite length_app. simpl. lia. }
  destruct (Htags {| outcomes := []; next_id := 1 |}) as [Hn1 Hl1]; [done|].
  simpl in Hl1.
  set (st1 := foldl step _ tags) in *.
  set (st2 := if existsb _ soft_skills then _ else st1).
  assert (numbered st2 ∧
          (length (outcomes st2) ≤ length (outcomes st1) + 1)%nat)
    as [Hn2 Hl2].
  { unfold st2. destruct (existsb _ soft_skills); [|split; [done|lia]].
    split; [by apply add_outcome_numbered|].
    simpl. rewrite length_app. simpl. lia. }
  set (st3 := if existsb _ regulatory_skills then _ else st2).
  assert (numbered st3 ∧
          (length (outcomes st3) ≤ length (outcomes st2) + 1)%nat)
    as [[Hids3 _] Hl3].
  { unfold st3.
    destruct (existsb _ regulatory_skills); [|split; [done|lia]].
    split; [by apply add_outcome_numbered|].
    simpl. rewrite length_app. simpl. lia. }
  destruct (outcomes st3) as [|o os] eqn:Houts.
  - split_and!; [done | done | simpl; lia].
  - split_and!; [done | done |]. simpl in *. lia.
Qed.

End CourseDetailsSpec.
